(** * The corpora controller of the Online Linguistic Database

    A shallow embedding of
    [onlinelinguisticdatabase/controllers/corpora.py] (Python 2, Pylons and
    SQLAlchemy), of the read-only contract exercised by
    [tests/functional/test_phonologybackups.py] and of the model class of
    [model/syntacticcategory.py].

    Python objects are records, the ORM session, the file system and the
    Pylons [response] global are fields of one [World] that every operation
    threads, and exceptions are values of a result type, so that
    [try ... except Exception] is an ordinary combinator. *)

From Stdlib Require Import Ascii.
From stdpp Require Import gmap strings list fin_maps pretty.

Open Scope Z_scope.

(** ** Python exceptions and results *)

Inductive exn :=
  | NameError (name : string)
  | KeyError (key : string)
  | IndexError
  | ValueError (msg : string)
  | TypeError (msg : string)
  | AttributeError (msg : string)
  | IOError (msg : string)
  | OSError (msg : string)
  | Invalid (errors : string)
  | JSONDecodeError
  | OtherError (msg : string).

#[global] Instance exn_eq_dec : EqDecision exn.
Proof. solve_decision. Defined.

(** [str(e)], as interpolated by ["%s" % e]. *)
Definition str_exn (e : exn) : string :=
  match e with
  | NameError n => "global name '" +:+ n +:+ "' is not defined"
  | KeyError k => k
  | IndexError => "list index out of range"
  | ValueError m | TypeError m | AttributeError m | IOError m | OSError m
  | Invalid m | OtherError m => m
  | JSONDecodeError => "No JSON object could be decoded"
  end.

Inductive res (A : Type) :=
  | Ok (a : A)
  | Raise (e : exn).
Arguments Ok {A} a.
Arguments Raise {A} e.

(** ** Data model *)

Record User := { user_id : Z; user_role : string }.
Record Tag := { tag_id : Z; tag_name : string }.
Record Form := { form_id : Z; form_transcription : string; form_tags : list Tag }.
Record FormSearch := { formsearch_id : Z; formsearch_search : string }.

(** [cf_id] is the primary key the database assigns when the object is
    flushed; an object that is only pending has none. *)
Record CorpusFile := {
  cf_id : option Z;
  cf_filename : string;
  cf_format : string;
  cf_restricted : bool;
  cf_creator : option User;
  cf_modifier : option User;
  cf_datetimeCreated : Z;
  cf_datetimeModified : Z
}.

(** [corpus_tags] and [corpus_forms] hold what [updateCorpus] assigns to
    them: the validated lists of the request, whose entries may be [None]. *)
Record Corpus := {
  corpus_id : Z;
  corpus_UUID : string;
  corpus_name : string;
  corpus_description : string;
  corpus_content : string;
  corpus_formSearch : option FormSearch;
  corpus_tags : list (option Tag);
  corpus_forms : list (option Form);
  corpus_files : list CorpusFile;
  corpus_enterer : option User;
  corpus_modifier : option User;
  corpus_datetimeEntered : Z;
  corpus_datetimeModified : Z
}.

(** [CorpusBackup.vivify(corpusDict)]: a backup stores the dictionary
    representation [corpus.getDict()] of a corpus, which is a copy of the
    attribute values at the time of the call. *)
Record CorpusBackup := { backup_dict : Corpus }.

#[global] Instance User_eq_dec : EqDecision User.
Proof. solve_decision. Defined.
#[global] Instance Tag_eq_dec : EqDecision Tag.
Proof. solve_decision. Defined.
#[global] Instance Form_eq_dec : EqDecision Form.
Proof. solve_decision. Defined.
#[global] Instance FormSearch_eq_dec : EqDecision FormSearch.
Proof. solve_decision. Defined.
#[global] Instance CorpusFile_eq_dec : EqDecision CorpusFile.
Proof. solve_decision. Defined.
#[global] Instance Corpus_eq_dec : EqDecision Corpus.
Proof. solve_decision. Defined.
#[global] Instance CorpusBackup_eq_dec : EqDecision CorpusBackup.
Proof. solve_decision. Defined.

(** Attribute assignment on a corpus object. *)
Definition set_name (v : string) (c : Corpus) : Corpus :=
  {| corpus_id := corpus_id c; corpus_UUID := corpus_UUID c; corpus_name := v;
     corpus_description := corpus_description c; corpus_content := corpus_content c;
     corpus_formSearch := corpus_formSearch c; corpus_tags := corpus_tags c;
     corpus_forms := corpus_forms c; corpus_files := corpus_files c;
     corpus_enterer := corpus_enterer c; corpus_modifier := corpus_modifier c;
     corpus_datetimeEntered := corpus_datetimeEntered c;
     corpus_datetimeModified := corpus_datetimeModified c |}.
Definition set_description (v : string) (c : Corpus) : Corpus :=
  {| corpus_id := corpus_id c; corpus_UUID := corpus_UUID c; corpus_name := corpus_name c;
     corpus_description := v; corpus_content := corpus_content c;
     corpus_formSearch := corpus_formSearch c; corpus_tags := corpus_tags c;
     corpus_forms := corpus_forms c; corpus_files := corpus_files c;
     corpus_enterer := corpus_enterer c; corpus_modifier := corpus_modifier c;
     corpus_datetimeEntered := corpus_datetimeEntered c;
     corpus_datetimeModified := corpus_datetimeModified c |}.
Definition set_content (v : string) (c : Corpus) : Corpus :=
  {| corpus_id := corpus_id c; corpus_UUID := corpus_UUID c; corpus_name := corpus_name c;
     corpus_description := corpus_description c; corpus_content := v;
     corpus_formSearch := corpus_formSearch c; corpus_tags := corpus_tags c;
     corpus_forms := corpus_forms c; corpus_files := corpus_files c;
     corpus_enterer := corpus_enterer c; corpus_modifier := corpus_modifier c;
     corpus_datetimeEntered := corpus_datetimeEntered c;
     corpus_datetimeModified := corpus_datetimeModified c |}.
Definition set_formSearch (v : option FormSearch) (c : Corpus) : Corpus :=
  {| corpus_id := corpus_id c; corpus_UUID := corpus_UUID c; corpus_name := corpus_name c;
     corpus_description := corpus_description c; corpus_content := corpus_content c;
     corpus_formSearch := v; corpus_tags := corpus_tags c;
     corpus_forms := corpus_forms c; corpus_files := corpus_files c;
     corpus_enterer := corpus_enterer c; corpus_modifier := corpus_modifier c;
     corpus_datetimeEntered := corpus_datetimeEntered c;
     corpus_datetimeModified := corpus_datetimeModified c |}.
Definition set_tags (v : list (option Tag)) (c : Corpus) : Corpus :=
  {| corpus_id := corpus_id c; corpus_UUID := corpus_UUID c; corpus_name := corpus_name c;
     corpus_description := corpus_description c; corpus_content := corpus_content c;
     corpus_formSearch := corpus_formSearch c; corpus_tags := v;
     corpus_forms := corpus_forms c; corpus_files := corpus_files c;
     corpus_enterer := corpus_enterer c; corpus_modifier := corpus_modifier c;
     corpus_datetimeEntered := corpus_datetimeEntered c;
     corpus_datetimeModified := corpus_datetimeModified c |}.
Definition set_forms (v : list (option Form)) (c : Corpus) : Corpus :=
  {| corpus_id := corpus_id c; corpus_UUID := corpus_UUID c; corpus_name := corpus_name c;
     corpus_description := corpus_description c; corpus_content := corpus_content c;
     corpus_formSearch := corpus_formSearch c; corpus_tags := corpus_tags c;
     corpus_forms := v; corpus_files := corpus_files c;
     corpus_enterer := corpus_enterer c; corpus_modifier := corpus_modifier c;
     corpus_datetimeEntered := corpus_datetimeEntered c;
     corpus_datetimeModified := corpus_datetimeModified c |}.
Definition set_files (v : list CorpusFile) (c : Corpus) : Corpus :=
  {| corpus_id := corpus_id c; corpus_UUID := corpus_UUID c; corpus_name := corpus_name c;
     corpus_description := corpus_description c; corpus_content := corpus_content c;
     corpus_formSearch := corpus_formSearch c; corpus_tags := corpus_tags c;
     corpus_forms := corpus_forms c; corpus_files := v;
     corpus_enterer := corpus_enterer c; corpus_modifier := corpus_modifier c;
     corpus_datetimeEntered := corpus_datetimeEntered c;
     corpus_datetimeModified := corpus_datetimeModified c |}.
Definition set_modifier (v : option User) (c : Corpus) : Corpus :=
  {| corpus_id := corpus_id c; corpus_UUID := corpus_UUID c; corpus_name := corpus_name c;
     corpus_description := corpus_description c; corpus_content := corpus_content c;
     corpus_formSearch := corpus_formSearch c; corpus_tags := corpus_tags c;
     corpus_forms := corpus_forms c; corpus_files := corpus_files c;
     corpus_enterer := corpus_enterer c; corpus_modifier := v;
     corpus_datetimeEntered := corpus_datetimeEntered c;
     corpus_datetimeModified := corpus_datetimeModified c |}.
Definition set_datetimeModified (v : Z) (c : Corpus) : Corpus :=
  {| corpus_id := corpus_id c; corpus_UUID := corpus_UUID c; corpus_name := corpus_name c;
     corpus_description := corpus_description c; corpus_content := corpus_content c;
     corpus_formSearch := corpus_formSearch c; corpus_tags := corpus_tags c;
     corpus_forms := corpus_forms c; corpus_files := corpus_files c;
     corpus_enterer := corpus_enterer c; corpus_modifier := corpus_modifier c;
     corpus_datetimeEntered := corpus_datetimeEntered c;
     corpus_datetimeModified := v |}.

(** ** The world an action runs in *)

(** A path is its list of components: [os.path.join d n] is [d ++ [n]] and
    [os.path.split p] is [(removelast p, last p)]. *)
Definition path := list string.

Inductive Node :=
  | File (data : string)
  | Dir.

#[global] Instance Node_eq_dec : EqDecision Node.
Proof. solve_decision. Defined.

(** The SQLAlchemy session is modelled in two layers: the committed rows
    ([table_corpus], [table_corpusbackup]) and the unit of work that
    [Session.commit] flushes: the objects loaded in the identity map, with
    the attribute values they have in memory ([session_identity]), the
    objects given to [Session.add] ([session_new]) and those given to
    [Session.delete] ([session_deleted]). *)
Record World := {
  table_corpus : gmap Z Corpus;
  table_corpusbackup : list CorpusBackup;
  session_identity : gmap Z Corpus;
  session_new : list CorpusBackup;
  session_deleted : list Z;
  filesystem : gmap path Node;
  response_status_int : Z;
  session_user : option User;
  clock : Z
}.

Definition set_table_corpus v (w : World) : World :=
  {| table_corpus := v; table_corpusbackup := table_corpusbackup w;
     session_identity := session_identity w; session_new := session_new w;
     session_deleted := session_deleted w; filesystem := filesystem w;
     response_status_int := response_status_int w;
     session_user := session_user w; clock := clock w |}.
Definition set_table_corpusbackup v (w : World) : World :=
  {| table_corpus := table_corpus w; table_corpusbackup := v;
     session_identity := session_identity w; session_new := session_new w;
     session_deleted := session_deleted w; filesystem := filesystem w;
     response_status_int := response_status_int w;
     session_user := session_user w; clock := clock w |}.
Definition set_session_identity v (w : World) : World :=
  {| table_corpus := table_corpus w; table_corpusbackup := table_corpusbackup w;
     session_identity := v; session_new := session_new w;
     session_deleted := session_deleted w; filesystem := filesystem w;
     response_status_int := response_status_int w;
     session_user := session_user w; clock := clock w |}.
Definition set_session_new v (w : World) : World :=
  {| table_corpus := table_corpus w; table_corpusbackup := table_corpusbackup w;
     session_identity := session_identity w; session_new := v;
     session_deleted := session_deleted w; filesystem := filesystem w;
     response_status_int := response_status_int w;
     session_user := session_user w; clock := clock w |}.
Definition set_session_deleted v (w : World) : World :=
  {| table_corpus := table_corpus w; table_corpusbackup := table_corpusbackup w;
     session_identity := session_identity w; session_new := session_new w;
     session_deleted := v; filesystem := filesystem w;
     response_status_int := response_status_int w;
     session_user := session_user w; clock := clock w |}.
Definition set_filesystem v (w : World) : World :=
  {| table_corpus := table_corpus w; table_corpusbackup := table_corpusbackup w;
     session_identity := session_identity w; session_new := session_new w;
     session_deleted := session_deleted w; filesystem := v;
     response_status_int := response_status_int w;
     session_user := session_user w; clock := clock w |}.
Definition set_status_int v (w : World) : World :=
  {| table_corpus := table_corpus w; table_corpusbackup := table_corpusbackup w;
     session_identity := session_identity w; session_new := session_new w;
     session_deleted := session_deleted w; filesystem := filesystem w;
     response_status_int := v;
     session_user := session_user w; clock := clock w |}.

(** ** The monad of actions: state that survives an exception *)

Definition Py (A : Type) : Type := World → res A * World.

#[global] Instance Py_ret : MRet Py := λ A a w, (Ok a, w).
#[global] Instance Py_bind : MBind Py := λ A B f m w,
  match m w with
  | (Ok a, w') => f a w'
  | (Raise e, w') => (Raise e, w')
  end.

Definition raise {A} (e : exn) : Py A := λ w, (Raise e, w).
Definition lift {A} (r : res A) : Py A := λ w, (r, w).
Definition gets {A} (f : World → A) : Py A := λ w, (Ok (f w), w).
Definition modify (f : World → World) : Py unit := λ w, (Ok tt, f w).

(** [try: body except Exception, e: handler]. *)
Definition try_except {A} (body : Py A) (handler : exn → Py A) : Py A := λ w,
  match body w with
  | (Ok a, w') => (Ok a, w')
  | (Raise e, w') => handler e w'
  end.

(** A [for] loop whose body may raise: the iterations run in order and the
    first exception ends the loop. *)
Fixpoint for_each {A S} (body : S → A → Py S) (l : list A) (s : S) : Py S :=
  match l with
  | [] => mret s
  | x :: l' => s' ← body s x; for_each body l' s'
  end.

(** ** Python built-ins used by the controller *)

(** A value interpolated by the [%] operator: route arguments ([id],
    [fileId]) are strings, primary keys are integers. *)
Inductive PyVal :=
  | PInt (z : Z)
  | PStr (s : string).

(** [%s] accepts any value. *)
Definition format_s (v : PyVal) : string :=
  match v with
  | PInt z => pretty z
  | PStr s => s
  end.

(** [%d] accepts a number only. *)
Definition format_d (v : PyVal) : res string :=
  match v with
  | PInt z => Ok (pretty z)
  | PStr _ => Raise (TypeError "%d format: a number is required, not unicode")
  end.

Definition dquote : string := String (Ascii.ascii_of_nat 34) EmptyString.

Fixpoint lstrip (s : string) : string :=
  match s with
  | String a s' => if Ascii.is_space a then lstrip s' else s
  | EmptyString => EmptyString
  end.

Definition strip (s : string) : string :=
  String.rev (lstrip (String.rev (lstrip s))).

Fixpoint digits_value (acc : Z) (s : string) : option Z :=
  match s with
  | EmptyString => Some acc
  | String a s' =>
      match Ascii.is_nat a with
      | Some d => digits_value (10 * acc + Z.of_nat d) s'
      | None => None
      end
  end.

Definition unsigned_literal (s : string) : option Z :=
  match s with
  | EmptyString => None
  | _ => digits_value 0 s
  end.

(** [int(s)] for a string [s]: blanks around an optionally signed run of
    decimal digits, [ValueError] for anything else. *)
Definition int_ (s : string) : res Z :=
  let bad := Raise (ValueError ("invalid literal for int() with base 10: '" +:+ s +:+ "'")) in
  match strip s with
  | String "-"%char r => match unsigned_literal r with Some z => Ok (- z) | None => bad end
  | String "+"%char r => match unsigned_literal r with Some z => Ok z | None => bad end
  | r => match unsigned_literal r with Some z => Ok z | None => bad end
  end.

(** A list comprehension whose element expression may raise. *)
Fixpoint map_res {A B} (f : A → res B) (l : list A) : res (list B) :=
  match l with
  | [] => Ok []
  | x :: l' =>
      match f x with
      | Raise e => Raise e
      | Ok y => match map_res f l' with
                | Raise e => Raise e
                | Ok ys => Ok (y :: ys)
                end
      end
  end.

(** [dict(pairs)]: a later pair replaces an earlier one with the same key. *)
Definition dict {V} (pairs : list (Z * V)) : gmap Z V :=
  foldl (λ d kv, <[kv.1 := kv.2]> d) ∅ pairs.

(** [set(l1) != set(l2)]. *)
Definition set_ne {A} `{EqDecision A} (l1 l2 : list A) : bool :=
  negb (bool_decide (l1 ⊆ l2 ∧ l2 ⊆ l1)).

(** ** The file system: [os.path.exists], [codecs.open], [write], [rmtree] *)

Definition os_path_exists (p : path) : Py bool :=
  gets (λ w, bool_decide (is_Some (filesystem w !! p))).

(** [codecs.open(p, 'w', 'utf8')] creates or truncates the file; it fails
    when the parent is not a directory or [p] is one. *)
Definition codecs_open_w (p : path) : Py unit := λ w,
  match filesystem w !! removelast p, filesystem w !! p with
  | Some Dir, Some Dir => (Raise (IOError "Is a directory"), w)
  | Some Dir, _ => (Ok tt, set_filesystem (<[p := File ""]> (filesystem w)) w)
  | _, _ => (Raise (IOError "No such file or directory"), w)
  end.

(** [f.write(s)] on the file opened at [p]. *)
Definition file_write (p : path) (s : string) : Py unit := λ w,
  match filesystem w !! p with
  | Some (File d) => (Ok tt, set_filesystem (<[p := File (d +:+ s)]> (filesystem w)) w)
  | _ => (Raise (IOError "write on a closed file"), w)
  end.

(** [shutil.rmtree(p)] deletes the directory tree rooted at [p]. Its first
    step lists the directory, so a path that is a regular file or that
    does not exist raises [OSError] and nothing is removed. *)
Definition rmtree (p : path) : Py unit := λ w,
  match filesystem w !! p with
  | Some Dir =>
      (Ok tt, set_filesystem (filter (λ kv, ¬ (p `prefix_of` kv.1)) (filesystem w)) w)
  | Some (File _) => (Raise (OSError "Not a directory"), w)
  | None => (Raise (OSError "No such file or directory"), w)
  end.

(** ** The ORM session *)

(** [Session.query(Corpus).get(k)] for an integer key: the loaded object if
    the identity map has one, else the row, which is then loaded. *)
Definition Query_get (k : Z) : Py (option Corpus) := λ w,
  match session_identity w !! k with
  | Some c => (Ok (Some c), w)
  | None =>
      match table_corpus w !! k with
      | Some c => (Ok (Some c), set_session_identity (<[k := c]> (session_identity w)) w)
      | None => (Ok None, w)
      end
  end.

(** The attribute values of a loaded object after an assignment in place:
    every reference to the object sees them, and the next commit flushes
    them. *)
Definition setattr_obj (c : Corpus) : Py unit :=
  modify (λ w, set_session_identity (<[corpus_id c := c]> (session_identity w)) w).

(** [Session.add(backup)] for a new object. *)
Definition Session_add_new (b : CorpusBackup) : Py unit :=
  modify (λ w, set_session_new (session_new w ++ [b]) w).

(** [Session.add(corpus)] for an object the session already holds. *)
Definition Session_add (c : Corpus) : Py unit := mret tt.

Definition Session_delete (c : Corpus) : Py unit :=
  modify (λ w, set_session_deleted (session_deleted w ++ [corpus_id c]) w).

Definition flush (w : World) : World :=
  let rows := foldr delete (session_identity w ∪ table_corpus w) (session_deleted w) in
  set_table_corpus rows
    (set_table_corpusbackup (table_corpusbackup w ++ session_new w)
       (set_session_identity (foldr delete (session_identity w) (session_deleted w))
          (set_session_new [] (set_session_deleted [] w)))).

Definition Session_commit : Py unit := modify flush.

Definition set_response_status (n : Z) : Py unit := modify (set_status_int n).

(** [session['user']]. *)
Definition session_user_item : Py User := λ w,
  match session_user w with
  | Some u => (Ok u, w)
  | None => (Raise (KeyError "user"), w)
  end.

(** ** Request and response values *)

(** A value of the JSON object in the request body; the lists the schemata
    read (tags, forms) are lists of ids. *)
Inductive Value :=
  | VNull
  | VStr (s : string)
  | VInt (z : Z)
  | VIds (l : list (option Z)).

(** The validated request of [create] and [update]. *)
Record Data := {
  data_name : string;
  data_description : string;
  data_content : string;
  data_formSearch : option FormSearch;
  data_tags : list (option Tag);
  data_forms : list (option Form)
}.

(** What an action returns, before [h.jsonify] or [json.dumps] serialise it. *)
Inductive Body :=
  | JCorpus (c : Corpus)
  | JError (msg : string)
  | JErrors (errors : string)
  | JJSONDecodeErrorResponse
  | JEdit (data : string) (c : Corpus)
  | JText (s : string)
  | FileAppBody (p : path).

#[global] Instance Body_eq_dec : EqDecision Body.
Proof. solve_decision. Defined.

#[global] Instance World_eq_dec : EqDecision World.
Proof. solve_decision. Defined.

#[global] Instance res_eq_dec {A} `{EqDecision A} : EqDecision (res A).
Proof. solve_decision. Defined.

(** ** Code of the repository that the controller imports *)

(** An entry of [h.corpusFormats]. *)
Record CorpusFormat := {
  writer : Form → res string;
  extension : string;
  suffix : string
}.

(** The helpers module [h], the schemata, the query builder and the
    database driver are not part of the sources at hand; the controller is
    verified for every implementation of them. *)
Record Helpers := {
  normalize : string → string;
  corpusFormats : gmap string CorpusFormat;
  compressFile : path → Py unit;
  getUnrestrictedUsers : list User;
  unauthorizedMsg : string;
  formReferencePattern_findall : string → list string;
  getIdsOfFormsReferenced : Value → res (list Z);
  getOLDDirectoryPath_corpora : path;
  getDataForNewEdit : string;
  (* json.loads(unicode(request.body, request.charset)) *)
  json_loads : string → res (gmap string Value);
  (* CorpusSchema().to_python(values, state), state carrying the id *)
  CorpusSchema_to_python : gmap string Value → string → res Data;
  (* CorpusFormatSchema.to_python(values)['format'] *)
  CorpusFormatSchema_to_python : gmap string Value → res string;
  (* SQLAQueryBuilder().getSQLAQuery(json.loads(search)).options(...).all() *)
  getSQLAQuery_all : string → res (list Form);
  (* the primary key that the database compares equal to a route id *)
  primary_key_of : string → option Z
}.

(** Modelled from the spec: [h.setAttr(obj, name, value, changed)] is not
    among the sources. As [updateCorpus] uses it, and as the update is
    refused when the submitted data equal the current state, it assigns
    [value] to the attribute when the two differ and then reports a change;
    otherwise it passes [changed] on. *)
Definition setAttr {A} `{EqDecision A} (get : Corpus → A) (set : A → Corpus → Corpus)
    (obj : Corpus) (value : A) (changed : bool) : Corpus * bool :=
  if bool_decide (get obj ≠ value) then (set value obj, true) else (obj, changed).

(** ** Name resolution

    A name that is read must be bound: a local of the running function, a
    global of the module or a built-in. Reading any other name raises
    [NameError]. *)

Definition module_globals : list string :=
  [ "logging"; "datetime"; "re"; "os"; "codecs"; "uuid4"; "rmtree"; "json";
    "letters"; "digits"; "sample"; "FileApp"; "request"; "response"; "session";
    "app_globals"; "config"; "restrict"; "forward"; "Invalid";
    "OperationalError"; "InvalidRequestError"; "asc"; "joinedload";
    "BaseController"; "CorpusSchema"; "CorpusFormatSchema"; "h";
    "SQLAQueryBuilder"; "OLDSearchParseError"; "Session"; "Corpus";
    "CorpusBackup"; "CorpusFile"; "Form"; "log"; "CorporaController";
    "authorizedToAccessCorpusFile"; "getFormReferences"; "writeToFile";
    "backupCorpus"; "createNewCorpus"; "updateCorpus"; "createCorpusDir";
    "getCorpusFilePath"; "getCorpusDirPath"; "removeCorpusDirectory";
    "getDataForNewEdit" ].

(** The functions and constants of Python 2's [__builtin__]; its exception
    classes, none of which is named here, are left out. *)
Definition builtins : list string :=
  [ "abs"; "all"; "any"; "apply"; "basestring"; "bin"; "bool"; "buffer";
    "bytearray"; "bytes"; "callable"; "chr"; "classmethod"; "cmp"; "coerce";
    "compile"; "complex"; "copyright"; "credits"; "delattr"; "dict"; "dir";
    "divmod"; "enumerate"; "eval"; "execfile"; "exit"; "file"; "filter";
    "float"; "format"; "frozenset"; "getattr"; "globals"; "hasattr"; "hash";
    "help"; "hex"; "id"; "input"; "int"; "intern"; "isinstance"; "issubclass";
    "iter"; "len"; "license"; "list"; "locals"; "long"; "map"; "max";
    "memoryview"; "min"; "next"; "object"; "oct"; "open"; "ord"; "pow";
    "print"; "property"; "quit"; "range"; "raw_input"; "reduce"; "reload";
    "repr"; "reversed"; "round"; "set"; "setattr"; "slice"; "sorted";
    "staticmethod"; "str"; "sum"; "super"; "tuple"; "type"; "unichr";
    "unicode"; "vars"; "xrange"; "zip"; "True"; "False"; "None";
    "NotImplemented"; "Ellipsis" ].

(** Every name that [writeToFile] binds: its parameters and the targets of
    its assignments, [def], [for], [with] and [except] statements. *)
Definition writeToFile_locals : list string :=
  [ "corpus"; "format_"; "errorMsg"; "updateCorpusFile"; "generateNewCorpusFile";
    "destroyFile"; "corpusFilePath"; "update"; "restricted"; "writer";
    "queryBuilder"; "forms"; "f"; "form"; "formReferences"; "id"; "now";
    "user"; "corpusFilename"; "e" ].

Definition load_name (locals : list string) (name : string) : Py unit :=
  if bool_decide (name ∈ locals ++ module_globals ++ builtins) then mret tt
  else raise (NameError name).

(** ['There is no corpus with id %s' % id]. *)
Definition no_corpus (id : string) : Body :=
  JError ("There is no corpus with id " +:+ format_s (PStr id)).

(** ** The functions of the module *)

Section Controller.

Variable h : Helpers.

(** [h.now()] reads the clock. *)
Definition h_now : Py Z := gets clock.

(** [Session.query(Corpus).get(id)] for the string a route passes. *)
Definition Query_get_route (id : string) : Py (option Corpus) :=
  match primary_key_of h id with
  | Some k => Query_get k
  | None => mret None
  end.

Definition authorizedToAccessCorpusFile (user : User) (corpusFile : CorpusFile) : bool :=
  if cf_restricted corpusFile
     && bool_decide (user_role user ≠ "administrator")
     && bool_decide (user ∉ getUnrestrictedUsers h)
  then false
  else true.

Definition getFormReferences (corpusContent : string) : res (list Z) :=
  if bool_decide (corpusContent ≠ "")
  then map_res int_ (formReferencePattern_findall h corpusContent)
  else Ok [].

Definition getCorpusDirPath (corpus : Corpus) : path :=
  getOLDDirectoryPath_corpora h ++ ["corpus_" +:+ pretty (corpus_id corpus)].

Definition getCorpusFilePath (corpus : Corpus) (format_ : string) : res path :=
  match corpusFormats h !! format_ with
  | None => Raise (KeyError format_)
  | Some fmt =>
      Ok (getCorpusDirPath corpus ++
          ["corpus_" +:+ pretty (corpus_id corpus) +:+ suffix fmt +:+ "." +:+ extension fmt])
  end.

Definition removeCorpusDirectory (corpus : Corpus) : Py (option path) :=
  try_except
    (let corpusDirPath := getCorpusDirPath corpus in
     rmtree corpusDirPath;; mret (Some corpusDirPath))
    (λ _, mret None).

(** *** [writeToFile] and its local functions *)

Definition errorMsg (corpus : Corpus) (format_ : string) (msg : exn) : Body :=
  JError ("Unable to write corpus " +:+ pretty (corpus_id corpus)
          +:+ " to file with format " +:+ dquote +:+ format_ +:+ dquote
          +:+ ". (" +:+ str_exn msg +:+ ")").

(** The body reads [corpusFilename], [user] and [now] from the enclosing
    function; its parameters [filename], [modifier] and [datetimeModified]
    are never read and are not passed here. *)
Definition updateCorpusFile (corpusFilename : string) (user : User) (now : Z)
    (corpus : Corpus) (restricted : bool) : Py Corpus :=
  match list_find (λ cf, cf_filename cf = corpusFilename) (corpus_files corpus) with
  | None => raise IndexError
  | Some (i, cf) =>
      let corpusFile :=
        {| cf_id := cf_id cf; cf_filename := cf_filename cf; cf_format := cf_format cf;
           cf_restricted := restricted; cf_creator := cf_creator cf;
           cf_modifier := Some user; cf_datetimeCreated := cf_datetimeCreated cf;
           cf_datetimeModified := now |} in
      let corpus :=
        set_datetimeModified now (set_files (<[i := corpusFile]> (corpus_files corpus)) corpus) in
      setattr_obj corpus;; mret corpus
  end.

Definition generateNewCorpusFile (corpus : Corpus) (filename format_ : string)
    (creator : User) (datetimeCreated : Z) (restricted : bool) : Py Corpus :=
  let corpusFile :=
    {| cf_id := None; cf_filename := filename; cf_format := format_;
       cf_restricted := restricted; cf_creator := Some creator;
       cf_modifier := Some creator; cf_datetimeCreated := datetimeCreated;
       cf_datetimeModified := datetimeCreated |} in
  let corpus :=
    set_datetimeModified datetimeCreated
      (set_files (corpus_files corpus ++ [corpusFile]) corpus) in
  setattr_obj corpus;; mret corpus.

Definition destroyFile (filePath : path) : Py unit :=
  try_except (rmtree filePath) (λ _, mret tt).

(** One iteration of either loop, after [form] is bound. *)
Definition write_form (writer : Form → res string) (corpusFilePath : path)
    (restricted : bool) (form : Form) : Py bool :=
  let restricted :=
    if negb restricted && bool_decide ("restricted" ∈ tag_name <$> form_tags form)
    then true else restricted in
  s ← lift (writer form);
  file_write corpusFilePath s;;
  mret restricted.

Definition form_id_pair (f : option Form) : res (Z * Form) :=
  match f with
  | Some f => Ok (form_id f, f)
  | None => Raise (AttributeError "'NoneType' object has no attribute 'id'")
  end.

Definition getitem (forms : gmap Z Form) (id : Z) : res Form :=
  match forms !! id with
  | Some form => Ok form
  | None => Raise (KeyError (pretty id))
  end.

(** The statements of the first [try] block before [h.compressFile]: they
    leave the text of the export at [corpusFilePath] and yield
    [restricted]. *)
Definition write_forms (corpus : Corpus) (format_ : string) (corpusFilePath : path)
    (restricted : bool) : Py bool :=
  fmt ← lift (match corpusFormats h !! format_ with
              | Some fmt => Ok fmt
              | None => Raise (KeyError format_)
              end);
  match corpus_formSearch corpus with
  | Some formSearch =>
      forms ← lift (getSQLAQuery_all h (formsearch_search formSearch));
      codecs_open_w corpusFilePath;;
      for_each (write_form (writer fmt) corpusFilePath) forms restricted
  | None =>
      formReferences ← lift (getFormReferences (corpus_content corpus));
      pairs ← lift (map_res form_id_pair (corpus_forms corpus));
      let forms := dict pairs in
      codecs_open_w corpusFilePath;;
      for_each (λ restricted id,
                  form ← lift (getitem forms id);
                  write_form (writer fmt) corpusFilePath restricted form)
               formReferences restricted
  end.

(** The second [try] block. In the update case the arguments of the call
    of [updateCorpusFile] are evaluated first, each a name to resolve. *)
Definition record_file (corpus : Corpus) (format_ : string) (corpusFilePath : path)
    (update restricted : bool) : Py Corpus :=
  now ← h_now;
  user ← session_user_item;
  let corpusFilename := last corpusFilePath in
  let corpusFilename := default "" corpusFilename in
  if update then
    try_except
      (load_name writeToFile_locals "updateCorpusFile";;
       load_name writeToFile_locals "corpus";;
       load_name writeToFile_locals "filename";;
       load_name writeToFile_locals "modifier";;
       load_name writeToFile_locals "datetimeModified";;
       load_name writeToFile_locals "restricted";;
       updateCorpusFile corpusFilename user now corpus restricted)
      (λ _, generateNewCorpusFile corpus corpusFilename format_ user now restricted)
  else generateNewCorpusFile corpus corpusFilename format_ user now restricted.

Definition writeToFile (corpus : Corpus) (format_ : string) : Py Body :=
  corpusFilePath ← lift (getCorpusFilePath corpus format_);
  update ← os_path_exists corpusFilePath;
  let restricted := false in
  written ← try_except
    (restricted ← write_forms corpus format_ corpusFilePath restricted;
     compressFile h corpusFilePath;;
     mret (inl restricted))
    (λ e, destroyFile corpusFilePath;;
          set_response_status 400;;
          mret (inr (errorMsg corpus format_ e)));
  match written with
  | inr error => mret error
  | inl restricted =>
      recorded ← try_except
        (corpus ← record_file corpus format_ corpusFilePath update restricted;
         mret (inl corpus))
        (λ e, destroyFile corpusFilePath;;
              set_response_status 400;;
              mret (inr (errorMsg corpus format_ e)));
      match recorded with
      | inr error => mret error
      | inl corpus => Session_commit;; mret (JCorpus corpus)
      end
  end.

(** *** Backup and update of a corpus *)

Definition getDict (corpus : Corpus) : Corpus := corpus.

Definition backupCorpus (corpusDict : Corpus) : Py unit :=
  let corpusBackup := {| backup_dict := corpusDict |} in
  Session_add_new corpusBackup.

(** [[x for x in l if x]]: [None] is the one false entry. *)
Definition truthy {A} (l : list (option A)) : list (option A) :=
  filter (λ x, is_Some x) l.

Definition not_new : Body :=
  JError "The update request failed because the submitted data were not new.".

(** The result is the updated corpus, or [None] for the [False] that the
    source returns when [changed] was never set. The object is assigned to
    in place either way. *)
Definition updateCorpus (corpus : Corpus) (data : Data) : Py (option Corpus) :=
  let changed := false in
  let '(corpus, changed) :=
    setAttr corpus_name set_name corpus (normalize h (data_name data)) changed in
  let '(corpus, changed) :=
    setAttr corpus_description set_description corpus
            (normalize h (data_description data)) changed in
  let '(corpus, changed) :=
    setAttr corpus_content set_content corpus (normalize h (data_content data)) changed in
  let '(corpus, changed) :=
    setAttr corpus_formSearch set_formSearch corpus (data_formSearch data) changed in
  let corpus := set_tags (data_tags data) corpus in
  let corpus := set_forms (data_forms data) corpus in
  let formsToAdd := truthy (data_forms data) in
  let tagsToAdd := truthy (data_tags data) in
  let '(corpus, changed) :=
    if set_ne formsToAdd (corpus_forms corpus)
    then (set_forms formsToAdd corpus, true) else (corpus, changed) in
  let '(corpus, changed) :=
    if set_ne tagsToAdd (corpus_tags corpus)
    then (set_tags tagsToAdd corpus, true) else (corpus, changed) in
  setattr_obj corpus;;
  if changed then
    user ← session_user_item;
    let corpus := set_modifier (Some user) corpus in
    setattr_obj corpus;;
    now ← h_now;
    let corpus := set_datetimeModified now corpus in
    setattr_obj corpus;;
    mret (Some corpus)
  else mret None.

End Controller.

(** ** The actions of [CorporaController]

    Each action is modelled past its decorators: the request has the
    method the action is restricted to and comes from an authenticated and
    authorized user. [id] and [fileId] are the strings of the route. *)

Module CorporaController.
Section Actions.

Variable h : Helpers.

Definition bad_request (e : exn) : Py Body :=
  match e with
  | JSONDecodeError => set_response_status 400;; mret JJSONDecodeErrorResponse
  | Invalid errors => set_response_status 400;; mret (JErrors errors)
  | _ => raise e
  end.

Definition update (id : string) (request_body : string) : Py Body :=
  key ← lift (int_ id);
  corpus ← Query_get key;
  match corpus with
  | Some corpus =>
      try_except
        (values ← lift (json_loads h request_body);
         forms ← lift (getIdsOfFormsReferenced h (default (VStr "") (values !! "content")));
         let values := <["forms" := VIds (Some <$> forms)]> values in
         data ← lift (CorpusSchema_to_python h values id);
         let corpusDict := getDict corpus in
         corpus ← updateCorpus h corpus data;
         match corpus with
         | Some corpus =>
             backupCorpus corpusDict;;
             Session_add corpus;;
             Session_commit;;
             mret (JCorpus corpus)
         | None =>
             set_response_status 400;;
             mret not_new
         end)
        bad_request
  | None => set_response_status 404;; mret (no_corpus id)
  end.

Definition delete (id : string) : Py Body :=
  corpus ← Query_get_route h id;
  match corpus with
  | Some corpus =>
      let corpusDict := getDict corpus in
      backupCorpus corpusDict;;
      Session_delete corpus;;
      Session_commit;;
      removeCorpusDirectory h corpus;;
      mret (JCorpus corpusDict)
  | None => set_response_status 404;; mret (no_corpus id)
  end.

Definition show (id : string) : Py Body :=
  corpus ← Query_get_route h id;
  match corpus with
  | Some corpus => mret (JCorpus corpus)
  | None => set_response_status 404;; mret (no_corpus id)
  end.

Definition edit (id : string) : Py Body :=
  corpus ← Query_get_route h id;
  match corpus with
  | Some corpus => mret (JEdit (getDataForNewEdit h) corpus)
  | None => set_response_status 404;; mret (no_corpus id)
  end.

Definition writetofile (id : string) (request_body : string) : Py Body :=
  corpus ← Query_get_route h id;
  match corpus with
  | Some corpus =>
      try_except
        (values ← lift (json_loads h request_body);
         format_ ← lift (CorpusFormatSchema_to_python h values);
         writeToFile h corpus format_)
        (λ e, match e with
              | Invalid errors => set_response_status 400;; mret (JErrors errors)
              | JSONDecodeError => set_response_status 400;; mret JJSONDecodeErrorResponse
              | _ => raise e
              end)
  | None => set_response_status 404;; mret (no_corpus id)
  end.

(** [filter(lambda cf: cf.id == int(fileId), files)]: the conversion runs
    once for every element. *)
Fixpoint files_with_id (fileId : string) (files : list CorpusFile) : res (list CorpusFile) :=
  match files with
  | [] => Ok []
  | cf :: files' =>
      match int_ fileId with
      | Raise e => Raise e
      | Ok key =>
          match files_with_id fileId files' with
          | Raise e => Raise e
          | Ok rest => Ok (if bool_decide (cf_id cf = Some key) then cf :: rest else rest)
          end
      end
  end.

Definition servefile (id fileId : string) : Py Body :=
  corpus ← Query_get_route h id;
  match corpus with
  | Some corpus =>
      try_except
        (matching ← lift (files_with_id fileId (corpus_files corpus));
         corpusFile ← lift (match matching with
                            | cf :: _ => Ok cf
                            | [] => Raise IndexError
                            end);
         let corpusFilePath :=
           getCorpusDirPath h corpus ++ [format_s (PStr (cf_filename corpusFile)) +:+ ".gz"] in
         user ← session_user_item;
         if authorizedToAccessCorpusFile h user corpusFile
         then mret (FileAppBody corpusFilePath)
         else set_response_status 403;; mret (JText (unauthorizedMsg h)))
        (λ _,
           set_response_status 400;;
           file_number ← lift (format_d (PStr fileId));
           corpus_number ← lift (format_d (PStr id));
           mret (JError ("Unable to serve corpus file " +:+ file_number
                         +:+ " of corpus " +:+ corpus_number)))
  | None => set_response_status 404;; mret (no_corpus id)
  end.

End Actions.
End CorporaController.

(** ** Read-only resources *)

(** Modelled from the spec: the controller of the phonology backups is not
    among the sources, only its functional test is. A read-only resource
    rejects the write verbs (create, new, update, delete, edit) with status
    404 and the fixed error body, whatever id the route carries. *)
Module PhonologybackupsController.

Definition read_only : Body := JError "This resource is read-only.".

Definition create : Py Body := set_response_status 404;; mret read_only.
Definition new : Py Body := set_response_status 404;; mret read_only.
Definition update (id : string) : Py Body := set_response_status 404;; mret read_only.
Definition delete (id : string) : Py Body := set_response_status 404;; mret read_only.
Definition edit (id : string) : Py Body := set_response_status 404;; mret read_only.

End PhonologybackupsController.

(** ** A concrete installation

    One implementation of the imported code and a small database, on which
    the actions are run. *)
Module Installation.

(** The matches of [[Ff]orm\[([0-9]+)\]], left to right. A match begins with
    the only letter f it contains, so no two candidates overlap and it is
    enough to try every position in turn. *)
Fixpoint digits_then_bracket (s : string) : option string :=
  match s with
  | String a s' =>
      if bool_decide (a = "]"%char) then Some EmptyString
      else match Ascii.is_nat a, digits_then_bracket s' with
           | Some _, Some d => Some (String a d)
           | _, _ => None
           end
  | EmptyString => None
  end.

Definition reference_at (s : string) : option string :=
  match s with
  | String f (String "o" (String "r" (String "m" (String "[" s')))) =>
      if bool_decide (f = "f"%char ∨ f = "F"%char) then
        match digits_then_bracket s' with
        | Some EmptyString => None
        | r => r
        end
      else None
  | _ => None
  end.

Fixpoint findall (s : string) : list string :=
  match s with
  | EmptyString => []
  | String _ s' =>
      match reference_at s with
      | Some d => d :: findall s'
      | None => findall s'
      end
  end.

Definition gz (p : path) : path :=
  removelast p ++ [default "" (last p) +:+ ".gz"].

(** Compression writes the archive next to the text and keeps the text. *)
Definition compress (p : path) : Py unit := λ w,
  match filesystem w !! p with
  | Some (File d) => (Ok tt, set_filesystem (<[gz p := File ("gzip:" +:+ d)]> (filesystem w)) w)
  | _ => (Raise (IOError "No such file or directory"), w)
  end.

Definition restricted_tag : Tag := {| tag_id := 1; tag_name := "restricted" |}.
Definition plain_tag : Tag := {| tag_id := 2; tag_name := "elicited" |}.

Definition form1 : Form :=
  {| form_id := 1; form_transcription := "chien"; form_tags := [plain_tag] |}.
Definition form2 : Form :=
  {| form_id := 2; form_transcription := "chat"; form_tags := [plain_tag; restricted_tag] |}.

Definition form_table : gmap Z Form := <[1 := form1]> (<[2 := form2]> ∅).
Definition tag_table : gmap Z Tag := <[1 := restricted_tag]> (<[2 := plain_tag]> ∅).

Definition str_field (values : gmap string Value) (k : string) : string :=
  match values !! k with
  | Some (VStr s) => s
  | _ => ""
  end.

(** A validator of ids: [None] passes, a known id becomes its object, an
    unknown one is invalid. *)
Definition valid_object {A} (table : gmap Z A) (i : option Z) : res (option A) :=
  match i with
  | None => Ok None
  | Some k => match table !! k with
              | Some x => Ok (Some x)
              | None => Raise (Invalid ("There is no object with id " +:+ pretty k))
              end
  end.

Definition ids_field (values : gmap string Value) (k : string) : list (option Z) :=
  match values !! k with
  | Some (VIds l) => l
  | _ => []
  end.

Definition schema (values : gmap string Value) (id : string) : res Data :=
  if bool_decide (str_field values "name" = "") then Raise (Invalid "name: Please enter a value")
  else
    match map_res (valid_object tag_table) (ids_field values "tags"),
          map_res (valid_object form_table) (ids_field values "forms") with
    | Ok tags, Ok forms =>
        Ok {| data_name := str_field values "name";
              data_description := str_field values "description";
              data_content := str_field values "content";
              data_formSearch := None;
              data_tags := tags;
              data_forms := forms |}
    | Raise e, _ | _, Raise e => Raise e
    end.

Definition treebank : CorpusFormat :=
  {| writer := λ f, Ok (form_transcription f +:+ ";"); extension := "tbk"; suffix := "" |}.

(** Request bodies are named rather than parsed. *)
Definition bodies : gmap string (gmap string Value) :=
  <["treebank" := <["format" := VStr "treebank"]> ∅]>
  (<["same, with an empty tag" :=
       <["name" := VStr "Corpus"]> (<["tags" := VIds [None]]> ∅)]>
  (<["renamed" := <["name" := VStr "Corpus of French"]> ∅]> ∅)).

Definition h : Helpers :=
  {| normalize := λ s, s;
     corpusFormats := <["treebank" := treebank]> ∅;
     compressFile := compress;
     getUnrestrictedUsers := [];
     unauthorizedMsg := "You are not authorized to access this resource.";
     formReferencePattern_findall := findall;
     getIdsOfFormsReferenced := λ v,
       match v with
       | VStr s => map_res int_ (findall s)
       | _ => Raise (TypeError "expected string or buffer")
       end;
     getOLDDirectoryPath_corpora := ["files"; "corpora"];
     getDataForNewEdit := "{}";
     json_loads := λ s, match bodies !! s with
                        | Some values => Ok values
                        | None => Raise JSONDecodeError
                        end;
     CorpusSchema_to_python := schema;
     CorpusFormatSchema_to_python := λ values,
       match values !! "format" with
       | Some (VStr "treebank") => Ok "treebank"
       | _ => Raise (Invalid "format: Value must be one of: treebank")
       end;
     getSQLAQuery_all := λ s, if bool_decide (s = "all") then Ok [form1; form2] else Ok [form1];
     primary_key_of := λ s, match int_ s with Ok k => Some k | Raise _ => None end |}.

Definition admin : User := {| user_id := 1; user_role := "administrator" |}.
Definition viewer : User := {| user_id := 2; user_role := "viewer" |}.

(** A corpus with no content, no tags and no files. *)
Definition corpus1 : Corpus :=
  {| corpus_id := 1; corpus_UUID := "uuid-1"; corpus_name := "Corpus";
     corpus_description := ""; corpus_content := "";
     corpus_formSearch := None; corpus_tags := []; corpus_forms := [];
     corpus_files := []; corpus_enterer := Some admin; corpus_modifier := Some admin;
     corpus_datetimeEntered := 10; corpus_datetimeModified := 10 |}.

(** A corpus whose content refers to forms 1 and 2 and which holds form 1
    only. *)
Definition corpus2 : Corpus :=
  set_forms [Some form1] (set_content "form[1] Form[2]" corpus1).

Definition world (c : Corpus) (user : User) : World :=
  {| table_corpus := <[corpus_id c := c]> ∅;
     table_corpusbackup := [];
     session_identity := ∅;
     session_new := [];
     session_deleted := [];
     filesystem := <[["files"; "corpora"; "corpus_1"] := Dir]>
                     (<[["files"; "corpora"] := Dir]> (<[["files"] := Dir]> (<[[] := Dir]> ∅)));
     response_status_int := 200;
     session_user := Some user;
     clock := 20 |}.

Definition export_path : path := ["files"; "corpora"; "corpus_1"; "corpus_1.tbk"].


(** A corpus that holds the two forms its content refers to, form 2 twice. *)
Definition corpus4 : Corpus :=
  set_forms [Some form1; Some form2] (set_content "form[2] form[1] form[2]" corpus1).

(** A corpus with one restricted file. *)
Definition restricted_file : CorpusFile :=
  {| cf_id := Some 5; cf_filename := "corpus_1.tbk"; cf_format := "treebank";
     cf_restricted := true; cf_creator := Some admin; cf_modifier := Some admin;
     cf_datetimeCreated := 10; cf_datetimeModified := 10 |}.

Definition corpus5 : Corpus := set_files [restricted_file] corpus1.

End Installation.

(** A request that changes an existing corpus. *)
Inductive Mutation :=
  | Put (id request_body : string)
  | Delete (id : string).

Definition perform (h : Helpers) (m : Mutation) : Py Body :=
  match m with
  | Put id request_body => CorporaController.update h id request_body
  | Delete id => CorporaController.delete h id
  end.

(** The corpus a mutation is about, as its action finds it: [update] looks
    up [int(id)], [delete] the id itself. *)
Definition corpus_before (h : Helpers) (m : Mutation) (w : World) : res (option Corpus) :=
  match m with
  | Put id _ =>
      match int_ id with
      | Ok key => (Query_get key w).1
      | Raise e => Raise e
      end
  | Delete id => (Query_get_route h id w).1
  end.

(** The forms an export consists of, in the order of writing: the result of
    the saved search if the corpus has one, else the forms that the
    references of the content denote among the forms of the corpus. *)
Definition forms_of_export (h : Helpers) (corpus : Corpus) : res (list Form) :=
  match corpus_formSearch corpus with
  | Some formSearch => getSQLAQuery_all h (formsearch_search formSearch)
  | None =>
      match getFormReferences h (corpus_content corpus),
            map_res form_id_pair (corpus_forms corpus) with
      | Ok formReferences, Ok pairs => map_res (getitem (dict pairs)) formReferences
      | Raise e, _ | _, Raise e => Raise e
      end
  end.

Definition tagged_restricted (form : Form) : bool :=
  bool_decide ("restricted" ∈ tag_name <$> form_tags form).

(** The record that [generateNewCorpusFile] appends. *)
Definition new_file (filename format_ : string) (user : User) (now : Z) (restricted : bool)
    : CorpusFile :=
  {| cf_id := None; cf_filename := filename; cf_format := format_;
     cf_restricted := restricted; cf_creator := Some user; cf_modifier := Some user;
     cf_datetimeCreated := now; cf_datetimeModified := now |}.

Definition text_of (texts : list string) : string := foldr String.app "" texts.

(** ** The requests the controller serves for existing corpora *)



(** Every corpus, row or loaded object, is stored under its own id. *)
Definition consistent (w : World) : Prop :=
  (∀ key c, table_corpus w !! key = Some c → corpus_id c = key) ∧
  (∀ key c, session_identity w !! key = Some c → corpus_id c = key).

(** An operation on files: it changes the file system and nothing else. *)
Definition touches_files_only {A} (f : Py A) : Prop :=
  ∀ w, ∃ fs, (f w).2 = set_filesystem fs w.

(** The database and the files are as they were, and nothing is pending
    that was not. *)
Definition unmodified (w w' : World) : Prop :=
  table_corpus w' = table_corpus w ∧
  table_corpusbackup w' = table_corpusbackup w ∧
  session_new w' = session_new w ∧
  session_deleted w' = session_deleted w ∧
  filesystem w' = filesystem w.

(** ** Creation of a corpus *)

(** What [create] uses besides the helpers: the random UUID, the key that
    the database gives the row it inserts, the schema run with a state
    that carries no id, and [h.makeDirectorySafely]. None is among the
    sources; [create] is verified for every implementation of them. *)
Record Creation := {
  uuid4 : string;
  new_primary_key : World → Z;
  CorpusSchema_to_python_new : gmap string Value → res Data;
  makeDirectorySafely : path → Py unit
}.

(** [getFormReferences(values.get('content', u''))], where the content is
    whatever JSON value the request holds: a false value gives the empty
    list, and the pattern accepts strings only. *)
Definition getFormReferences_of (h : Helpers) (corpusContent : Value) : res (list Z) :=
  match corpusContent with
  | VStr s => getFormReferences h s
  | VNull | VInt 0 | VIds [] => Ok []
  | VInt _ | VIds _ => Raise (TypeError "expected string or buffer")
  end.

(** The new object has no id before it is flushed: the result is the corpus
    for each id that the database may give it. *)
Definition createNewCorpus (h : Helpers) (n : Creation) (data : Data) : Py (Z → Corpus) :=
  user ← session_user_item;
  now ← h_now;
  mret (λ id,
    {| corpus_id := id;
       corpus_UUID := uuid4 n;
       corpus_name := normalize h (data_name data);
       corpus_description := normalize h (data_description data);
       corpus_content := normalize h (data_content data);
       corpus_formSearch := data_formSearch data;
       corpus_tags := data_tags data;
       corpus_forms := data_forms data;
       corpus_files := [];
       corpus_enterer := Some user;
       corpus_modifier := Some user;
       corpus_datetimeEntered := now;
       corpus_datetimeModified := now |}).

(** [Session.add(corpus)] followed by [Session.commit()] for a new corpus:
    the flush inserts the row under the key that the database assigns, and
    the session holds the object under that key. *)
Definition Session_add_commit (n : Creation) (pending : Z → Corpus) : Py Corpus := λ w,
  let corpus := pending (new_primary_key n w) in
  (Ok corpus,
   flush (set_session_identity (<[corpus_id corpus := corpus]> (session_identity w)) w)).

Definition createCorpusDir (h : Helpers) (n : Creation) (corpus : Corpus) : Py path :=
  let corpusDirPath := getCorpusDirPath h corpus in
  makeDirectorySafely n corpusDirPath;;
  mret corpusDirPath.

(** [CorporaController.create], past its decorators. *)
Definition create (h : Helpers) (n : Creation) (request_body : string) : Py Body :=
  try_except
    (values ← lift (json_loads h request_body);
     forms ← lift (getFormReferences_of h (default (VStr "") (values !! "content")));
     let values := <["forms" := VIds (Some <$> forms)]> values in
     data ← lift (CorpusSchema_to_python_new n values);
     pending ← createNewCorpus h n data;
     corpus ← Session_add_commit n pending;
     createCorpusDir h n corpus;;
     mret (JCorpus corpus))
    (λ e, match e with
          | JSONDecodeError => set_response_status 400;; mret JJSONDecodeErrorResponse
          | Invalid errors => set_response_status 400;; mret (JErrors errors)
          | _ => raise e
          end).

(** A concrete database and directory helper for the installation. *)
Module NewCorpus.




End NewCorpus.

(** ** The model class of [model/syntacticcategory.py] *)

Module SyntacticCategory.

(** The columns of the class. *)
Definition columns : list string :=
  ["id"; "UUID"; "name"; "type"; "description"; "datetime_modified"].

(** An instance is the dictionary of the attributes assigned to it; a
    column that was never assigned reads [None]. The defaults of the
    columns ([uuid_unicode], [now]) apply when a row is inserted, not
    here. *)
Definition column (self : gmap string Value) (name : string) : Value :=
  default VNull (self !! name).

(** [__init__(self, **kwargs)], the keyword arguments in the order in which
    [kwargs.iteritems()] yields them. *)
Definition __init__ (kwargs : list (string * Value)) : gmap string Value :=
  foldl (λ self kv, <[kv.1 := kv.2]> self) ∅ kwargs.

Definition get_dict (self : gmap string Value) : gmap string Value :=
  <["id" := column self "id"]>
  (<["UUID" := column self "UUID"]>
  (<["name" := column self "name"]>
  (<["type" := column self "type"]>
  (<["description" := column self "description"]>
  (<["datetime_modified" := column self "datetime_modified"]> ∅))))).

End SyntacticCategory.

(** ** Decimal literals *)

Fixpoint digits_only (s : string) : bool :=
  match s with
  | EmptyString => true
  | String a s' => bool_decide (is_Some (Ascii.is_nat a)) && digits_only s'
  end.

Fixpoint spaceless (s : string) : bool :=
  match s with
  | EmptyString => true
  | String a s' => negb (Ascii.is_space a) && spaceless s'
  end.

(** A second corpus of the installation. *)
Definition corpus_two : Corpus :=
  {| corpus_id := 2; corpus_UUID := "uuid-2"; corpus_name := "Second corpus";
     corpus_description := ""; corpus_content := "";
     corpus_formSearch := None; corpus_tags := []; corpus_forms := [];
     corpus_files := []; corpus_enterer := Some Installation.admin;
     corpus_modifier := Some Installation.admin;
     corpus_datetimeEntered := 11; corpus_datetimeModified := 11 |}.

(** * Properties *)

(** ** Running an action step by step *)

Lemma bind_Ok {A B} (m : Py A) (f : A → Py B) w a w' :
  m w = (Ok a, w') → (m ≫= f) w = f a w'.
Proof. intros E. unfold mbind, Py_bind. by rewrite E. Qed.

Lemma bind_inv {A B} (m : Py A) (f : A → Py B) w b w' :
  (m ≫= f) w = (Ok b, w') → ∃ a w1, m w = (Ok a, w1) ∧ f a w1 = (Ok b, w').
Proof.
  unfold mbind, Py_bind. destruct (m w) as [[a|e] w1]; [eauto | discriminate].
Qed.

Lemma lift_inv {A} (r : res A) w a w' :
  lift r w = (Ok a, w') → r = Ok a ∧ w' = w.
Proof. unfold lift. intros [= -> ->]. done. Qed.

Lemma try_except_Raise {A} (body : Py A) handler w e w' :
  body w = (Raise e, w') → try_except body handler w = handler e w'.
Proof. intros E. unfold try_except. by rewrite E. Qed.

Lemma try_except_inv {A} (body : Py A) handler w a w' :
  try_except body handler w = (Ok a, w') →
  body w = (Ok a, w') ∨ ∃ e w1, body w = (Raise e, w1) ∧ handler e w1 = (Ok a, w').
Proof. unfold try_except. destruct (body w) as [[x|e] w1]; eauto. Qed.

Lemma app_text_assoc (a b c : string) : (a +:+ b) +:+ c = a +:+ (b +:+ c).
Proof.
  induction a as [|x a IH]; [done |].
  change (String x ((a +:+ b) +:+ c) = String x (a +:+ (b +:+ c))). by rewrite IH.
Qed.

Lemma app_text_empty (a : string) : a +:+ "" = a.
Proof.
  induction a as [|x a IH]; [done |].
  change (String x (a +:+ "") = String x a). by rewrite IH.
Qed.

(** ** Read-only resources *)

(** C6: every write verb on the read-only phonology backups (create, new,
    update, delete, edit) answers with status 404 and the error
    'This resource is read-only.', whatever id is supplied and whatever
    the state. *)
Theorem read_only_rejects_write_verbs (id : string) (w : World) :
  let rejected := (Ok (JError "This resource is read-only."), set_status_int 404 w) in
  PhonologybackupsController.create w = rejected ∧
  PhonologybackupsController.new w = rejected ∧
  PhonologybackupsController.update id w = rejected ∧
  PhonologybackupsController.delete id w = rejected ∧
  PhonologybackupsController.edit id w = rejected.
Proof. repeat split. Qed.

(** ** The export loop *)

Section ExportProperties.

Variable h : Helpers.

Lemma write_form_inv wr p r form w r' w' :
  write_form wr p r form w = (Ok r', w') →
  ∃ d s, wr form = Ok s ∧ filesystem w !! p = Some (File d) ∧
         filesystem w' = <[p := File (d +:+ s)]> (filesystem w) ∧
         r' = r || tagged_restricted form.
Proof.
  unfold write_form. intros H.
  apply bind_inv in H as (s & w1 & H1 & H).
  apply lift_inv in H1 as [Hs ->].
  apply bind_inv in H as ([] & w2 & H2 & H).
  unfold file_write in H2.
  destruct (filesystem w !! p) as [[d|]|] eqn:Hp; try discriminate.
  injection H2 as <-. injection H as <- <-.
  exists d, s. repeat split; [done|].
  unfold tagged_restricted. by destruct r, (bool_decide _).
Qed.

(** Both loops of [writeToFile] bind [form] and then run the same body. *)
Lemma write_loop {A} (g : A → res Form) (body : bool → A → Py bool) wr p :
  (∀ r x w, body r x w = (form ← lift (g x); write_form wr p r form) w) →
  ∀ xs r w r' w' d,
    for_each body xs r w = (Ok r', w') →
    filesystem w !! p = Some (File d) →
    ∃ forms texts,
      map_res g xs = Ok forms ∧ map_res wr forms = Ok texts ∧
      filesystem w' !! p = Some (File (d +:+ text_of texts)) ∧
      r' = r || existsb tagged_restricted forms.
Proof.
  intros Hbody. induction xs as [|x xs IH]; intros r w r' w' d H Hp.
  - injection H as <- <-. exists [], []. cbn.
    rewrite app_text_empty, orb_false_r. done.
  - cbn [for_each] in H. apply bind_inv in H as (r1 & w1 & H1 & H).
    rewrite Hbody in H1. apply bind_inv in H1 as (form & w0 & Hg & H1).
    apply lift_inv in Hg as [Hg ->].
    apply write_form_inv in H1 as (d' & s & Hs & Hp' & Hfs & ->).
    rewrite Hp in Hp'. injection Hp' as <-.
    destruct (IH _ _ _ _ (d +:+ s) H) as (forms & texts & Hforms & Htexts & Hfile & ->).
    { rewrite Hfs. apply lookup_insert_eq. }
    exists (form :: forms), (s :: texts). cbn.
    rewrite Hg, Hforms, Hs, Htexts, Hfile, app_text_assoc, orb_assoc. done.
Qed.

Lemma codecs_open_w_inv p w w' :
  codecs_open_w p w = (Ok tt, w') → filesystem w' !! p = Some (File "").
Proof.
  unfold codecs_open_w. intros H.
  destruct (filesystem w !! removelast p) as [[|]|]; try discriminate.
  destruct (filesystem w !! p) as [[|]|]; try discriminate;
    injection H as <-; apply lookup_insert_eq.
Qed.

Lemma map_res_Ok_id {A} (l : list A) : map_res Ok l = Ok l.
Proof. induction l as [|x l IH]; [done | cbn; by rewrite IH]. Qed.

(** What a successful run of the writing statements leaves behind: the
    text of the forms of the export, in order, and the flag. *)
Lemma write_forms_inv corpus format_ p w r w' :
  write_forms h corpus format_ p false w = (Ok r, w') →
  ∃ fmt forms texts,
    corpusFormats h !! format_ = Some fmt ∧
    forms_of_export h corpus = Ok forms ∧
    map_res (writer fmt) forms = Ok texts ∧
    filesystem w' !! p = Some (File (text_of texts)) ∧
    r = existsb tagged_restricted forms.
Proof.
  unfold write_forms, forms_of_export. intros H.
  apply bind_inv in H as (fmt & w0 & Hfmt & H).
  apply lift_inv in Hfmt as [Hfmt ->].
  destruct (corpusFormats h !! format_) as [fmt'|] eqn:Hlook; [|discriminate].
  injection Hfmt as ->. exists fmt.
  destruct (corpus_formSearch corpus) as [formSearch|].
  - apply bind_inv in H as (forms & w0 & Hq & H). apply lift_inv in Hq as [Hq ->].
    apply bind_inv in H as ([] & w1 & Hopen & H).
    apply codecs_open_w_inv in Hopen.
    eapply (write_loop Ok) in H as (forms' & texts & Hforms & Htexts & Hfile & ->);
      [| done | exact Hopen].
    rewrite map_res_Ok_id in Hforms. injection Hforms as <-.
    exists forms, texts. by rewrite Hq.
  - apply bind_inv in H as (refs & w0 & Hrefs & H). apply lift_inv in Hrefs as [Hrefs ->].
    apply bind_inv in H as (pairs & w0 & Hpairs & H). apply lift_inv in Hpairs as [Hpairs ->].
    apply bind_inv in H as ([] & w1 & Hopen & H).
    apply codecs_open_w_inv in Hopen.
    eapply (write_loop (getitem (dict pairs))) in H
      as (forms & texts & Hforms & Htexts & Hfile & ->); [| done | exact Hopen].
    exists forms, texts. by rewrite Hrefs, Hpairs.
Qed.

Lemma handler_returns_error {A} corpus format_ p e w (r : A + Body) w' :
  (destroyFile p;; set_response_status 400;; mret (inr (errorMsg corpus format_ e))) w
    = (Ok r, w') →
  r = inr (errorMsg corpus format_ e).
Proof.
  intros H. apply bind_inv in H as (? & ? & _ & H).
  apply bind_inv in H as (? & ? & _ & H). by injection H as <- <-.
Qed.

Lemma load_name_filename w :
  load_name writeToFile_locals "filename" w = (Raise (NameError "filename"), w).
Proof. reflexivity. Qed.

(** Whether or not the export exists already, the second block ends in
    [generateNewCorpusFile]: in the update case the call of
    [updateCorpusFile] raises [NameError] on its second argument. *)
Lemma record_file_generates corpus format_ p update restricted w :
  record_file corpus format_ p update restricted w =
  (now ← h_now; user ← session_user_item;
   generateNewCorpusFile corpus (default "" (last p)) format_ user now restricted) w.
Proof.
  destruct update; [|done].
  unfold record_file, mbind, Py_bind, h_now, gets, session_user_item.
  destruct (session_user w) as [user|]; done.
Qed.

Lemma record_file_inv corpus format_ p update restricted w c' w' :
  record_file corpus format_ p update restricted w = (Ok c', w') →
  ∃ user,
    session_user w = Some user ∧
    c' = set_datetimeModified (clock w)
           (set_files (corpus_files corpus ++
                       [new_file (default "" (last p)) format_ user (clock w) restricted])
                      corpus) ∧
    w' = set_session_identity (<[corpus_id c' := c']> (session_identity w)) w.
Proof.
  rewrite record_file_generates.
  unfold mbind, Py_bind, h_now, gets, session_user_item, generateNewCorpusFile,
    setattr_obj, modify, mret, Py_ret.
  destruct (session_user w) as [user|]; [|discriminate].
  intros [= <- <-]. by exists user.
Qed.

Lemma writeToFile_inv corpus format_ w c' w' :
  writeToFile h corpus format_ w = (Ok (JCorpus c'), w') →
  ∃ p r w1 w2 w3,
    getCorpusFilePath h corpus format_ = Ok p ∧
    write_forms h corpus format_ p false w = (Ok r, w1) ∧
    compressFile h p w1 = (Ok tt, w2) ∧
    record_file corpus format_ p (bool_decide (is_Some (filesystem w !! p))) r w2
      = (Ok c', w3) ∧
    w' = flush w3.
Proof.
  unfold writeToFile. intros H.
  apply bind_inv in H as (p & w0 & Hp & H). apply lift_inv in Hp as [Hp ->].
  apply bind_inv in H as (update & w0 & Hu & H). injection Hu as <- <-.
  apply bind_inv in H as (written & w2 & Htry & H).
  apply try_except_inv in Htry as [Hbody | (e & wx & _ & Hhandler)].
  2:{ apply handler_returns_error in Hhandler as ->. discriminate H. }
  apply bind_inv in Hbody as (r & w1 & Hw & Hbody).
  apply bind_inv in Hbody as ([] & w2' & Hc & Hbody).
  injection Hbody as <- <-.
  apply bind_inv in H as (recorded & w3 & Htry & H).
  apply try_except_inv in Htry as [Hbody | (e & wx & _ & Hhandler)].
  2:{ apply handler_returns_error in Hhandler as ->. discriminate H. }
  apply bind_inv in Hbody as (c1 & w3' & Hr & Hbody).
  injection Hbody as <- <-.
  apply bind_inv in H as ([] & w4 & Hcommit & H).
  injection Hcommit as <-. injection H as <- <-.
  eexists p, r, w1, _, _. repeat split; eauto.
Qed.

Lemma dict_lookup_inv (forms : list (option Form)) pairs :
  map_res form_id_pair forms = Ok pairs →
  ∀ id form, dict pairs !! id = Some form → form_id form = id ∧ Some form ∈ forms.
Proof.
  intros Hpairs.
  assert (Forall (λ kv, form_id kv.2 = kv.1 ∧ Some kv.2 ∈ forms) pairs) as Hall.
  { clear -Hpairs. revert pairs Hpairs.
    induction forms as [|[f|] forms IH]; intros pairs H; cbn in H; try discriminate.
    - injection H as <-. constructor.
    - destruct (map_res form_id_pair forms) as [ps|] eqn:E; [|discriminate].
      injection H as <-. constructor; [split; [done | by left] |].
      eapply Forall_impl; [by apply IH |]. intros kv [? ?]. split; [done | by right]. }
  unfold dict.
  assert (∀ k v, (∅ : gmap Z Form) !! k = Some v → form_id v = k ∧ Some v ∈ forms) as Hd
    by (intros k v; by rewrite lookup_empty).
  clear Hpairs. revert Hd. generalize (∅ : gmap Z Form).
  induction Hall as [|[k0 v0] ps [Hk Hin] _ IH]; intros d Hd id form; cbn.
  - apply Hd.
  - intros Hl. eapply IH; [| exact Hl]. intros k v. cbn in *. rewrite lookup_insert.
    case_decide; [intros [= <-]; by subst | apply Hd].
Qed.

Lemma map_getitem_ids (forms : gmap Z Form) (P : Form → Prop) :
  (∀ id form, forms !! id = Some form → form_id form = id ∧ P form) →
  ∀ ids found, map_res (getitem forms) ids = Ok found →
  form_id <$> found = ids ∧ Forall P found.
Proof.
  intros Hd. induction ids as [|id ids IH]; intros found H; cbn in H.
  - by injection H as <-.
  - unfold getitem at 1 in H. destruct (forms !! id) as [form|] eqn:E; [|discriminate].
    destruct (map_res (getitem forms) ids) as [rest|]; [|discriminate].
    injection H as <-. destruct (IH rest eq_refl) as [<- ?].
    destruct (Hd _ _ E) as [<- ?]. split; [done | by constructor].
Qed.

(** C3: after a successful export, the file record that [writeToFile] made
    is restricted if and only if one of the forms written to the file
    carries a tag named restricted. *)
Theorem writeToFile_restricted_iff corpus format_ w c' w' :
  writeToFile h corpus format_ w = (Ok (JCorpus c'), w') →
  ∃ p fmt forms texts r w1 file,
    getCorpusFilePath h corpus format_ = Ok p ∧
    corpusFormats h !! format_ = Some fmt ∧
    forms_of_export h corpus = Ok forms ∧
    map_res (writer fmt) forms = Ok texts ∧
    write_forms h corpus format_ p false w = (Ok r, w1) ∧
    filesystem w1 !! p = Some (File (text_of texts)) ∧
    corpus_files c' = corpus_files corpus ++ [file] ∧
    cf_filename file = default "" (last p) ∧
    (cf_restricted file = true ↔
     ∃ form, form ∈ forms ∧ "restricted" ∈ tag_name <$> form_tags form).
Proof.
  intros H. apply writeToFile_inv in H as (p & r & w1 & w2 & w3 & Hp & Hw & _ & Hr & _).
  pose proof Hw as Hw'.
  apply write_forms_inv in Hw' as (fmt & forms & texts & Hfmt & Hforms & Htexts & Hfile & ->).
  apply record_file_inv in Hr as (user & _ & -> & _).
  eexists p, fmt, forms, texts, _, w1, _. repeat split; eauto.
  - cbn. intros Hex. apply existsb_exists in Hex as (form & Hin & Htag).
    exists form. split; [by apply list_elem_of_In |].
    unfold tagged_restricted in Htag. by apply bool_decide_eq_true in Htag.
  - cbn. intros (form & Hin & Htag). apply existsb_exists.
    exists form. split; [by apply list_elem_of_In |].
    unfold tagged_restricted. by apply bool_decide_eq_true.
Qed.

(** C7: for a corpus without a saved search, a successful export writes
    the forms that the references of the content denote, one per
    reference and in the order of the references, repeats included;
    [getFormReferences] converts the matches of the reference pattern in
    their order and yields the empty list for empty content. *)
Theorem writeToFile_follows_references corpus format_ w c' w' :
  corpus_formSearch corpus = None →
  writeToFile h corpus format_ w = (Ok (JCorpus c'), w') →
  getFormReferences h "" = Ok [] ∧
  (∀ content, content ≠ "" →
     getFormReferences h content = map_res int_ (formReferencePattern_findall h content)) ∧
  ∃ p fmt formReferences forms texts r w1,
    getCorpusFilePath h corpus format_ = Ok p ∧
    corpusFormats h !! format_ = Some fmt ∧
    getFormReferences h (corpus_content corpus) = Ok formReferences ∧
    form_id <$> forms = formReferences ∧
    Forall (λ form, Some form ∈ corpus_forms corpus) forms ∧
    map_res (writer fmt) forms = Ok texts ∧
    write_forms h corpus format_ p false w = (Ok r, w1) ∧
    filesystem w1 !! p = Some (File (text_of texts)).
Proof.
  intros Hsearch H. split; [done |]. split.
  { intros content Hne. unfold getFormReferences. by rewrite bool_decide_eq_true_2. }
  apply writeToFile_inv in H as (p & r & w1 & w2 & w3 & Hp & Hw & _).
  pose proof Hw as Hw'.
  apply write_forms_inv in Hw' as (fmt & forms & texts & Hfmt & Hforms & Htexts & Hfile & _).
  unfold forms_of_export in Hforms. rewrite Hsearch in Hforms.
  destruct (getFormReferences h (corpus_content corpus)) as [refs|] eqn:Hrefs; [|done].
  destruct (map_res form_id_pair (corpus_forms corpus)) as [pairs|] eqn:Hpairs; [|done].
  destruct (map_getitem_ids (dict pairs) (λ form, Some form ∈ corpus_forms corpus)
              (dict_lookup_inv _ _ Hpairs) _ _ Hforms) as [Hids Hall].
  eexists p, fmt, refs, forms, texts, r, w1. repeat split; eauto.
Qed.


Lemma destroyFile_runs p w : destroyFile p w = (Ok tt, (rmtree p w).2).
Proof.
  unfold destroyFile, try_except, rmtree.
  by destruct (filesystem w !! p) as [[|]|].
Qed.

(** [writeToFile] as one case analysis. *)
Lemma writeToFile_cases corpus format_ w :
  writeToFile h corpus format_ w =
  match getCorpusFilePath h corpus format_ with
  | Raise e => (Raise e, w)
  | Ok p =>
      let failure e w :=
        (Ok (errorMsg corpus format_ e), set_status_int 400 (rmtree p w).2) in
      match write_forms h corpus format_ p false w with
      | (Raise e, w1) => failure e w1
      | (Ok r, w1) =>
          match compressFile h p w1 with
          | (Raise e, w2) => failure e w2
          | (Ok _, w2) =>
              match session_user w2 with
              | None => failure (KeyError "user") w2
              | Some user =>
                  let c' :=
                    set_datetimeModified (clock w2)
                      (set_files (corpus_files corpus ++
                                  [new_file (default "" (last p)) format_ user (clock w2) r])
                                 corpus) in
                  (Ok (JCorpus c'),
                   flush (set_session_identity (<[corpus_id c' := c']> (session_identity w2)) w2))
              end
          end
      end
  end.
Proof.
  unfold writeToFile, mbind, Py_bind, try_except, lift, os_path_exists, gets, mret, Py_ret.
  cbv beta.
  destruct (getCorpusFilePath h corpus format_) as [p|e]; [|done]. cbv beta iota zeta.
  destruct (write_forms h corpus format_ p false w) as [[r|e] w1]; cbv beta iota.
  2:{ rewrite destroyFile_runs. done. }
  destruct (compressFile h p w1) as [[[]|e] w2]; cbv beta iota.
  2:{ rewrite destroyFile_runs. done. }
  rewrite record_file_generates.
  unfold mbind, Py_bind, h_now, gets, session_user_item.
  destruct (session_user w2) as [user|]; [done |].
  rewrite destroyFile_runs. done.
Qed.

(** [destroyFile] removes no regular file. *)
Lemma destroyFile_keeps_file p d w :
  filesystem w !! p = Some (File d) → destroyFile p w = (Ok tt, w).
Proof. intros Hp. unfold destroyFile, try_except, rmtree. by rewrite Hp. Qed.

(** An export that has a file path and does not succeed answers with the
    error message and status 400. *)
Lemma writeToFile_failure_answers_400 corpus format_ p w :
  getCorpusFilePath h corpus format_ = Ok p →
  (∃ c', (writeToFile h corpus format_ w).1 = Ok (JCorpus c')) ∨
  (∃ e, (writeToFile h corpus format_ w).1 = Ok (errorMsg corpus format_ e) ∧
        response_status_int (writeToFile h corpus format_ w).2 = 400).
Proof.
  intros Hp. rewrite writeToFile_cases, Hp. cbv zeta.
  destruct (write_forms h corpus format_ p false w) as [[r|e] w1]; [| right; by exists e].
  destruct (compressFile h p w1) as [[[]|e] w2]; [| right; by exists e].
  destruct (session_user w2) as [user|]; [left; by eexists | right; by eexists].
Qed.

(** A successful export appends a record, also when the export existed. *)
Lemma writeToFile_always_appends corpus format_ w c' w' :
  writeToFile h corpus format_ w = (Ok (JCorpus c'), w') →
  ∃ file, corpus_files c' = corpus_files corpus ++ [file] ∧ cf_format file = format_.
Proof.
  intros H. apply writeToFile_inv in H as (p & r & w1 & w2 & w3 & _ & _ & _ & Hr & _).
  apply record_file_inv in Hr as (user & _ & -> & _). by eexists.
Qed.


End ExportProperties.

(** ** The actions *)

Section ActionProperties.

Variable h : Helpers.

Lemma Query_get_frame key w r w' :
  Query_get key w = (r, w') →
  table_corpusbackup w' = table_corpusbackup w ∧ session_new w' = session_new w ∧
  session_deleted w' = session_deleted w ∧ table_corpus w' = table_corpus w ∧
  filesystem w' = filesystem w ∧ response_status_int w' = response_status_int w.
Proof.
  unfold Query_get.
  destruct (session_identity w !! key); [by intros [= <- <-] |].
  destruct (table_corpus w !! key); by intros [= <- <-].
Qed.

Lemma Query_get_None key w w' : Query_get key w = (Ok None, w') → w' = w.
Proof.
  unfold Query_get.
  destruct (session_identity w !! key); [discriminate |].
  destruct (table_corpus w !! key); [discriminate | by intros [= <-]].
Qed.

Lemma Query_get_route_frame id w r w' :
  Query_get_route h id w = (r, w') →
  table_corpusbackup w' = table_corpusbackup w ∧ session_new w' = session_new w ∧
  session_deleted w' = session_deleted w ∧ table_corpus w' = table_corpus w ∧
  filesystem w' = filesystem w ∧ response_status_int w' = response_status_int w.
Proof.
  unfold Query_get_route. destruct (primary_key_of h id); [apply Query_get_frame |].
  by intros [= <- <-].
Qed.

Lemma Query_get_route_None id w w' : Query_get_route h id w = (Ok None, w') → w' = w.
Proof.
  unfold Query_get_route. destruct (primary_key_of h id); [apply Query_get_None |].
  by intros [= <-].
Qed.

(** [updateCorpus] assigns to the corpus object and touches nothing else. *)
Lemma updateCorpus_frame corpus data w r w' :
  updateCorpus h corpus data w = (r, w') →
  table_corpusbackup w' = table_corpusbackup w ∧ session_new w' = session_new w ∧
  session_deleted w' = session_deleted w ∧ table_corpus w' = table_corpus w ∧
  filesystem w' = filesystem w ∧ response_status_int w' = response_status_int w.
Proof.
  unfold updateCorpus.
  repeat match goal with |- context [setAttr ?g ?s ?c ?v ?b] =>
    destruct (setAttr g s c v b) end.
  repeat match goal with |- context [set_ne ?a ?b] => destruct (set_ne a b) end;
  unfold mbind, Py_bind, setattr_obj, modify, session_user_item, h_now, gets, mret, Py_ret;
  cbn; repeat match goal with |- context [if ?b then _ else _] => destruct b end;
  cbn; destruct (session_user w); by intros [= <- <-].
Qed.

Lemma bad_request_not_corpus e w c w' : CorporaController.bad_request e w ≠ (Ok (JCorpus c), w').
Proof. destruct e; discriminate. Qed.

(** The corpus that the request of a mutation names, as the action finds it. *)
Lemma update_inv id request_body w c' w' :
  CorporaController.update h id request_body w = (Ok (JCorpus c'), w') →
  ∃ key c w0 values forms data w1,
    int_ id = Ok key ∧ Query_get key w = (Ok (Some c), w0) ∧
    json_loads h request_body = Ok values ∧
    getIdsOfFormsReferenced h (default (VStr "") (values !! "content")) = Ok forms ∧
    CorpusSchema_to_python h (<["forms" := VIds (Some <$> forms)]> values) id = Ok data ∧
    updateCorpus h c data w0 = (Ok (Some c'), w1) ∧
    w' = flush (set_session_new (session_new w1 ++ [{| backup_dict := c |}]) w1).
Proof.
  unfold CorporaController.update. intros H.
  apply bind_inv in H as (key & w0 & Hkey & H). apply lift_inv in Hkey as [Hkey ->].
  apply bind_inv in H as (found & w0 & Hget & H).
  destruct found as [c|].
  2:{ apply bind_inv in H as (? & ? & _ & H). discriminate H. }
  apply try_except_inv in H as [H | (e & w1 & _ & H)].
  2:{ by apply bad_request_not_corpus in H. }
  apply bind_inv in H as (values & w1 & Hv & H). apply lift_inv in Hv as [Hv ->].
  apply bind_inv in H as (forms & w1 & Hf & H). apply lift_inv in Hf as [Hf ->].
  apply bind_inv in H as (data & w1 & Hd & H). apply lift_inv in Hd as [Hd ->].
  apply bind_inv in H as (updated & w1 & Hu & H).
  destruct updated as [c1|].
  2:{ apply bind_inv in H as (? & ? & _ & H). discriminate H. }
  apply bind_inv in H as ([] & w2 & Hb & H). injection Hb as <-.
  apply bind_inv in H as ([] & w3 & Ha & H). injection Ha as <-.
  apply bind_inv in H as ([] & w4 & Hc & H). injection Hc as <-.
  injection H as <- <-.
  eexists key, c, w0, values, forms, data, w1. done.
Qed.

Lemma removeCorpusDirectory_frame corpus w r w' :
  removeCorpusDirectory h corpus w = (r, w') →
  table_corpusbackup w' = table_corpusbackup w ∧ session_new w' = session_new w ∧
  table_corpus w' = table_corpus w.
Proof.
  unfold removeCorpusDirectory, try_except, mbind, Py_bind, rmtree.
  destruct (filesystem w !! getCorpusDirPath h corpus) as [[|]|]; by intros [= <- <-].
Qed.

Lemma delete_inv id w c' w' :
  CorporaController.delete h id w = (Ok (JCorpus c'), w') →
  ∃ w0 w1 r,
    Query_get_route h id w = (Ok (Some c'), w0) ∧
    w1 = flush (set_session_deleted (session_deleted w0 ++ [corpus_id c'])
                 (set_session_new (session_new w0 ++ [{| backup_dict := c' |}]) w0)) ∧
    removeCorpusDirectory h c' w1 = (r, w').
Proof.
  unfold CorporaController.delete. intros H.
  apply bind_inv in H as (found & w0 & Hget & H).
  destruct found as [c|].
  2:{ apply bind_inv in H as (? & ? & _ & H). discriminate H. }
  apply bind_inv in H as ([] & w1 & Hb & H). injection Hb as <-.
  apply bind_inv in H as ([] & w2 & Hd & H). injection Hd as <-.
  apply bind_inv in H as ([] & w3 & Hc & H). injection Hc as <-.
  apply bind_inv in H as (r & w4 & Hr & H). injection H as <- <-.
  eexists w0, _, (Ok r). done.
Qed.

(** C5: a successful update or deletion of an existing corpus, run in a
    session with nothing pending, commits exactly one new backup, and that
    backup is the dictionary of the corpus as the action found it. *)
Theorem mutation_adds_one_backup (m : Mutation) (w : World) (c' : Corpus) (w' : World) :
  session_new w = [] →
  perform h m w = (Ok (JCorpus c'), w') →
  ∃ c,
    corpus_before h m w = Ok (Some c) ∧
    table_corpusbackup w' = table_corpusbackup w ++ [{| backup_dict := getDict c |}] ∧
    session_new w' = [].
Proof.
  intros Hclean H. destruct m as [id request_body | id]; cbn [perform corpus_before] in *.
  - apply update_inv in H
      as (key & c & w0 & values & forms & data & w1 & Hkey & Hget & _ & _ & _ & Hu & ->).
    exists c. rewrite Hkey, Hget.
    apply Query_get_frame in Hget as (Hb0 & Hn0 & _).
    apply updateCorpus_frame in Hu as (Hb1 & Hn1 & _).
    cbn. rewrite Hb1, Hn1, Hb0, Hn0, Hclean. done.
  - apply delete_inv in H as (w0 & w1 & r & Hget & -> & Hr).
    exists c'. rewrite Hget.
    apply Query_get_route_frame in Hget as (Hb0 & Hn0 & _).
    apply removeCorpusDirectory_frame in Hr as (-> & -> & _).
    cbn. rewrite Hb0, Hn0, Hclean. done.
Qed.

(** With a route id that finds no corpus, the four actions that look the
    id up as it is answer 404, name the id and leave the state as it was. *)
Lemma missing_corpus_404 id request_body w :
  (Query_get_route h id w).1 = Ok None →
  let missing := (Ok (no_corpus id), set_status_int 404 w) in
  CorporaController.show h id w = missing ∧
  CorporaController.delete h id w = missing ∧
  CorporaController.edit h id w = missing ∧
  CorporaController.writetofile h id request_body w = missing.
Proof.
  intros Hnone. destruct (Query_get_route h id w) as [r w0] eqn:Hget.
  cbn in Hnone. subst r. pose proof (Query_get_route_None _ _ _ Hget) as ->.
  unfold CorporaController.show, CorporaController.delete, CorporaController.edit,
    CorporaController.writetofile.
  repeat split; by erewrite bind_Ok by exact Hget.
Qed.

(** So does [update], when the id is an integer literal. *)
Lemma update_missing_corpus_404 id key request_body w :
  int_ id = Ok key →
  (Query_get key w).1 = Ok None →
  CorporaController.update h id request_body w = (Ok (no_corpus id), set_status_int 404 w).
Proof.
  intros Hkey Hnone. destruct (Query_get key w) as [r w0] eqn:Hget.
  cbn in Hnone. subst r. pose proof (Query_get_None _ _ _ Hget) as ->.
  unfold CorporaController.update.
  erewrite bind_Ok by (unfold lift; by rewrite Hkey).
  by erewrite bind_Ok by exact Hget.
Qed.

Lemma authorizedToAccessCorpusFile_iff user corpusFile :
  authorizedToAccessCorpusFile h user corpusFile = true ↔
  cf_restricted corpusFile = false ∨ user_role user = "administrator"
  ∨ user ∈ getUnrestrictedUsers h.
Proof.
  unfold authorizedToAccessCorpusFile.
  destruct (cf_restricted corpusFile); cbn; [| by split; [left |]].
  destruct (decide (user_role user = "administrator")) as [Hrole|Hrole].
  { rewrite (bool_decide_eq_false_2 _ (λ Hne, Hne Hrole)). cbn. split; [by right; left | done]. }
  rewrite (bool_decide_eq_true_2 _ Hrole). cbn.
  destruct (decide (user ∈ getUnrestrictedUsers h)) as [Hin|Hin].
  { rewrite (bool_decide_eq_false_2 _ (λ Hne, Hne Hin)). split; [by right; right | done]. }
  rewrite (bool_decide_eq_true_2 _ Hin). split; [done |].
  intros [? | [? | ?]]; done.
Qed.

(** The handler of [servefile] interpolates the two route strings with
    [%d]: whatever the failure, it raises [TypeError] after it has set the
    status. *)
Lemma servefile_failure_raises id fileId corpus w w0 e w1 :
  Query_get_route h id w = (Ok (Some corpus), w0) →
  (matching ← lift (CorporaController.files_with_id fileId (corpus_files corpus));
   corpusFile ← lift (match matching with
                      | cf :: _ => Ok cf
                      | [] => Raise IndexError
                      end);
   user ← session_user_item;
   if authorizedToAccessCorpusFile h user corpusFile
   then mret (FileAppBody
                (getCorpusDirPath h corpus ++
                 [format_s (PStr (cf_filename corpusFile)) +:+ ".gz"]))
   else set_response_status 403;; mret (JText (unauthorizedMsg h))) w0 = (Raise e, w1) →
  CorporaController.servefile h id fileId w
  = (Raise (TypeError "%d format: a number is required, not unicode"), set_status_int 400 w1).
Proof.
  intros Hget Hbody. unfold CorporaController.servefile.
  erewrite bind_Ok by exact Hget. cbv beta iota zeta.
  erewrite try_except_Raise by exact Hbody. done.
Qed.

Lemma truthy_id {A} (l : list (option A)) : None ∉ l → truthy l = l.
Proof.
  unfold truthy. induction l as [|[x|] l IH]; intros Hno; [done | | ].
  - rewrite filter_cons_True by done. rewrite IH; [done |].
    intros Hin. apply Hno. by right.
  - exfalso. apply Hno. by left.
Qed.

Lemma set_ne_same {A} `{EqDecision A} (l : list A) : set_ne l l = false.
Proof. unfold set_ne. by rewrite bool_decide_eq_true_2. Qed.

(** [updateCorpus] assigns the submitted tags and forms to the corpus
    before it compares them, so the comparison is between the submitted
    lists and themselves: when the four scalar attributes are equal and no
    submitted entry is [None], the data are found not new, whatever tags
    and forms the corpus had. *)
Lemma updateCorpus_not_new corpus data w :
  normalize h (data_name data) = corpus_name corpus →
  normalize h (data_description data) = corpus_description corpus →
  normalize h (data_content data) = corpus_content corpus →
  data_formSearch data = corpus_formSearch corpus →
  None ∉ data_forms data → None ∉ data_tags data →
  updateCorpus h corpus data w =
  (Ok None,
   set_session_identity
     (<[corpus_id corpus := set_forms (data_forms data) (set_tags (data_tags data) corpus)]>
        (session_identity w)) w).
Proof.
  intros Hn Hd Hc Hs Hf Ht. unfold updateCorpus, setAttr.
  rewrite Hn, Hd, Hc, Hs.
  rewrite !bool_decide_eq_false_2 by (intros Hne; by apply Hne).
  rewrite !truthy_id by done. cbn. rewrite !set_ne_same. done.
Qed.

End ActionProperties.

(** ** The actions on the concrete installation *)

(** C1: exporting a corpus twice in the same format leaves two file records
    with the same filename on the corpus: in the update case the call of
    [updateCorpusFile] raises [NameError] and [generateNewCorpusFile]
    appends a second record. *)
Theorem writeToFile_again_appends_second_record :
  let record := new_file "corpus_1.tbk" "treebank" Installation.admin 20 false in
  let c1 := set_datetimeModified 20 (set_files [record] Installation.corpus1) in
  let c2 := set_datetimeModified 20 (set_files [record; record] Installation.corpus1) in
  let first := writeToFile Installation.h Installation.corpus1 "treebank"
                 (Installation.world Installation.corpus1 Installation.admin) in
  let second := writeToFile Installation.h c1 "treebank" first.2 in
  first.1 = Ok (JCorpus c1) ∧
  getCorpusFilePath Installation.h c1 "treebank" = Ok Installation.export_path ∧
  filesystem first.2 !! Installation.export_path = Some (File "") ∧
  second.1 = Ok (JCorpus c2) ∧
  table_corpus second.2 !! 1 = Some c2 ∧
  cf_filename <$> corpus_files c2 = ["corpus_1.tbk"; "corpus_1.tbk"] ∧
  cf_format <$> corpus_files c2 = ["treebank"; "treebank"].
Proof. repeat split; vm_compute; reflexivity. Qed.

(** C2: an export that fails after the file was opened (the content refers
    to a form that the corpus does not hold) answers 400 with an error
    message and commits nothing, but the partial file stays on disk:
    [destroyFile] calls [rmtree], which removes directories only, and
    ignores its error. *)
Theorem writeToFile_failure_keeps_partial_file :
  let w := Installation.world Installation.corpus2 Installation.admin in
  let run := writeToFile Installation.h Installation.corpus2 "treebank" w in
  run.1 = Ok (errorMsg Installation.corpus2 "treebank" (KeyError "2")) ∧
  response_status_int run.2 = 400 ∧
  table_corpus run.2 = table_corpus w ∧
  filesystem w !! Installation.export_path = None ∧
  filesystem run.2 !! Installation.export_path = Some (File "chien;").
Proof. repeat split; vm_compute; reflexivity. Qed.

(** C8: [update] converts the route id with [int] before it looks the
    corpus up, outside of any [try]: for an id that is not an integer
    literal, which matches no corpus, it raises [ValueError] and builds no
    404 response, where [show] answers 404 for the same id. *)
Theorem update_raises_on_non_integer_id (h : Helpers) (request_body : string) (w : World) :
  let w0 := Installation.world Installation.corpus1 Installation.admin in
  CorporaController.update h "abc" request_body w
  = (Raise (ValueError "invalid literal for int() with base 10: 'abc'"), w) ∧
  CorporaController.show Installation.h "abc" w0
  = (Ok (no_corpus "abc"), set_status_int 404 w0).
Proof. split; [reflexivity | vm_compute; reflexivity]. Qed.

(** C9: a request for a file that the corpus does not have makes
    [servefile] raise [TypeError] from its own handler, after the status
    was set to 400: no response with that status is returned. *)
Theorem servefile_failure_raises_TypeError :
  let run := CorporaController.servefile Installation.h "1" "7"
               (Installation.world Installation.corpus5 Installation.viewer) in
  run.1 = Raise (TypeError "%d format: a number is required, not unicode") ∧
  response_status_int run.2 = 400.
Proof. split; vm_compute; reflexivity. Qed.

(** C10: an update whose data equal the current state except for an empty
    entry in the submitted tags is accepted as a change: it returns the
    corpus with status 200, commits a backup and sets a new modification
    time. *)
Theorem update_with_empty_tag_is_accepted :
  let corpus := Installation.corpus1 in
  let w := Installation.world corpus Installation.admin in
  let values := <["name" := VStr "Corpus"]> (<["tags" := VIds [None]]> ∅) in
  let data := {| data_name := "Corpus"; data_description := ""; data_content := "";
                 data_formSearch := None; data_tags := [None]; data_forms := [] |} in
  let run := CorporaController.update Installation.h "1" "same, with an empty tag" w in
  json_loads Installation.h "same, with an empty tag" = Ok values ∧
  CorpusSchema_to_python Installation.h (<["forms" := VIds []]> values) "1" = Ok data ∧
  normalize Installation.h (data_name data) = corpus_name corpus ∧
  normalize Installation.h (data_description data) = corpus_description corpus ∧
  normalize Installation.h (data_content data) = corpus_content corpus ∧
  data_formSearch data = corpus_formSearch corpus ∧
  truthy (data_forms data) = truthy (corpus_forms corpus) ∧
  truthy (data_tags data) = truthy (corpus_tags corpus) ∧
  run.1 = Ok (JCorpus (set_datetimeModified 20 corpus)) ∧
  response_status_int run.2 = 200 ∧
  table_corpusbackup run.2 = [{| backup_dict := corpus |}] ∧
  corpus_datetimeModified corpus = 10.
Proof. repeat split; vm_compute; reflexivity. Qed.

(** ** The theorems at work on the installation *)

Lemma writeToFile_restricted_iff_witness :
  let corpus := Installation.corpus4 in
  let w := Installation.world corpus Installation.admin in
  let c' := set_datetimeModified 20
              (set_files [new_file "corpus_1.tbk" "treebank" Installation.admin 20 true]
                         corpus) in
  let w' := (writeToFile Installation.h corpus "treebank" w).2 in
  writeToFile Installation.h corpus "treebank" w = (Ok (JCorpus c'), w') ∧
  ∃ p fmt forms texts r w1 file,
    getCorpusFilePath Installation.h corpus "treebank" = Ok p ∧
    corpusFormats Installation.h !! "treebank" = Some fmt ∧
    forms_of_export Installation.h corpus = Ok forms ∧
    map_res (writer fmt) forms = Ok texts ∧
    write_forms Installation.h corpus "treebank" p false w = (Ok r, w1) ∧
    filesystem w1 !! p = Some (File (text_of texts)) ∧
    corpus_files c' = corpus_files corpus ++ [file] ∧
    cf_filename file = default "" (last p) ∧
    (cf_restricted file = true ↔
     ∃ form, form ∈ forms ∧ "restricted" ∈ tag_name <$> form_tags form).
Proof.
  intros corpus w c' w'.
  split; [vm_compute; reflexivity |].
  apply (writeToFile_restricted_iff Installation.h corpus "treebank" w c' w').
  vm_compute; reflexivity.
Defined.

Lemma writeToFile_follows_references_witness :
  let corpus := Installation.corpus4 in
  let w := Installation.world corpus Installation.admin in
  let c' := set_datetimeModified 20
              (set_files [new_file "corpus_1.tbk" "treebank" Installation.admin 20 true]
                         corpus) in
  let w' := (writeToFile Installation.h corpus "treebank" w).2 in
  corpus_formSearch corpus = None ∧
  writeToFile Installation.h corpus "treebank" w = (Ok (JCorpus c'), w') ∧
  getFormReferences Installation.h "" = Ok [] ∧
  (∀ content, content ≠ "" →
     getFormReferences Installation.h content
     = map_res int_ (formReferencePattern_findall Installation.h content)) ∧
  ∃ p fmt formReferences forms texts r w1,
    getCorpusFilePath Installation.h corpus "treebank" = Ok p ∧
    corpusFormats Installation.h !! "treebank" = Some fmt ∧
    getFormReferences Installation.h (corpus_content corpus) = Ok formReferences ∧
    form_id <$> forms = formReferences ∧
    Forall (λ form, Some form ∈ corpus_forms corpus) forms ∧
    map_res (writer fmt) forms = Ok texts ∧
    write_forms Installation.h corpus "treebank" p false w = (Ok r, w1) ∧
    filesystem w1 !! p = Some (File (text_of texts)).
Proof.
  intros corpus w c' w'.
  split; [reflexivity |].
  split; [vm_compute; reflexivity |].
  apply (writeToFile_follows_references Installation.h corpus "treebank" w c' w');
    [reflexivity | vm_compute; reflexivity].
Defined.


Lemma mutation_adds_one_backup_witness :
  let m := Put "1" "renamed" in
  let w := Installation.world Installation.corpus1 Installation.admin in
  let c' := set_datetimeModified 20 (set_name "Corpus of French" Installation.corpus1) in
  let w' := (perform Installation.h m w).2 in
  session_new w = [] ∧
  perform Installation.h m w = (Ok (JCorpus c'), w') ∧
  ∃ c,
    corpus_before Installation.h m w = Ok (Some c) ∧
    table_corpusbackup w' = table_corpusbackup w ++ [{| backup_dict := getDict c |}] ∧
    session_new w' = [].
Proof.
  intros m w c' w'.
  split; [reflexivity |].
  split; [vm_compute; reflexivity |].
  apply (mutation_adds_one_backup Installation.h m w c' w');
    [reflexivity | vm_compute; reflexivity].
Defined.

(** * Further properties of the controller *)

Section MoreActionProperties.

Variable h : Helpers.

Lemma unmodified_refl w : unmodified w w.
Proof. by repeat split. Qed.

Lemma Query_get_route_unmodified id w r w' :
  Query_get_route h id w = (r, w') → unmodified w w' ∧ response_status_int w' = response_status_int w.
Proof.
  intros H. apply Query_get_route_frame in H as (? & ? & ? & ? & ? & ?). by repeat split.
Qed.

(** [filter(lambda cf: cf.id == int(fileId), files)] for a file id that
    converts. *)
Lemma files_with_id_filter fileId key files :
  int_ fileId = Ok key →
  CorporaController.files_with_id fileId files
  = Ok (filter (λ cf, cf_id cf = Some key) files).
Proof.
  intros Hkey. induction files as [|cf files IH]; [done |].
  cbn [CorporaController.files_with_id]. rewrite Hkey, IH.
  rewrite filter_cons.
  case_decide; [rewrite bool_decide_eq_true_2 by done | rewrite bool_decide_eq_false_2 by done];
    done.
Qed.

Lemma GET_unmodified (id fileId : string) (w : World) :
  unmodified w (CorporaController.show h id w).2 ∧
  unmodified w (CorporaController.edit h id w).2 ∧
  unmodified w (CorporaController.servefile h id fileId w).2.
Proof.
  unfold CorporaController.show, CorporaController.edit, CorporaController.servefile.
  unfold mbind, Py_bind.
  destruct (Query_get_route h id w) as [[[c|]|e] w0] eqn:Hget;
    apply Query_get_route_unmodified in Hget as [Hsame _]; cbn; try done.
  split; [done |]. split; [done |].
  unfold try_except, lift, session_user_item.
  destruct (CorporaController.files_with_id fileId (corpus_files c)) as [[|cf rest]|e];
    [done | | done].
  destruct (session_user w0); [| done].
  by destruct (authorizedToAccessCorpusFile h u cf).
Qed.

(** X1: the actions answering GET requests ([show], [edit], [servefile])
    change no row, no backup, no file and leave nothing pending in the
    session, whatever the ids and whatever the outcome. *)
Theorem GET_actions_modify_nothing (id fileId : string) (w : World) :
  unmodified w (CorporaController.show h id w).2 ∧
  unmodified w (CorporaController.edit h id w).2 ∧
  unmodified w (CorporaController.servefile h id fileId w).2.
Proof. apply GET_unmodified. Qed.

(** X2: an id that finds no corpus makes [show], [delete], [edit],
    [writetofile] and [servefile] answer with status 404 and the error
    that names the id, and leaves the whole state as it was. *)
Theorem missing_corpus_answers_404 (id fileId request_body : string) (w : World) :
  (Query_get_route h id w).1 = Ok None →
  let missing :=
    (Ok (JError ("There is no corpus with id " +:+ id)), set_status_int 404 w) in
  CorporaController.show h id w = missing ∧
  CorporaController.delete h id w = missing ∧
  CorporaController.edit h id w = missing ∧
  CorporaController.writetofile h id request_body w = missing ∧
  CorporaController.servefile h id fileId w = missing.
Proof.
  intros Hnone. destruct (Query_get_route h id w) as [r w0] eqn:Hget.
  cbn in Hnone. subst r. pose proof (Query_get_route_None _ _ _ _ Hget) as ->.
  unfold CorporaController.show, CorporaController.delete, CorporaController.edit,
    CorporaController.writetofile, CorporaController.servefile.
  repeat split; by erewrite bind_Ok by exact Hget.
Qed.

(** X3: [servefile] serves the first file record of the corpus with the
    requested id, from the corpus directory and under the name of the
    record followed by .gz, if the record is not restricted, or the user
    is an administrator, or the user is one of the unrestricted users;
    otherwise it answers 403 with the unauthorized message. *)
Theorem servefile_access (id fileId : string) (w w0 : World) (corpus : Corpus)
    (key : Z) (corpusFile : CorpusFile) (user : User) :
  Query_get_route h id w = (Ok (Some corpus), w0) →
  int_ fileId = Ok key →
  head (filter (λ cf, cf_id cf = Some key) (corpus_files corpus)) = Some corpusFile →
  session_user w = Some user →
  let granted :=
    cf_restricted corpusFile = false ∨ user_role user = "administrator"
    ∨ user ∈ getUnrestrictedUsers h in
  (granted →
   CorporaController.servefile h id fileId w
   = (Ok (FileAppBody (getCorpusDirPath h corpus ++ [cf_filename corpusFile +:+ ".gz"])), w0)) ∧
  (¬ granted →
   CorporaController.servefile h id fileId w
   = (Ok (JText (unauthorizedMsg h)), set_status_int 403 w0)).
Proof.
  intros Hget Hkey Hhead Huser granted.
  assert (session_user w0 = Some user) as Huser0.
  { revert Hget. unfold Query_get_route, Query_get.
    destruct (primary_key_of h id) as [k|]; [| discriminate].
    destruct (session_identity w !! k); [by intros [= <- <-] |].
    destruct (table_corpus w !! k); [by intros [= <- <-] | discriminate]. }
  unfold CorporaController.servefile. erewrite bind_Ok by exact Hget. cbv beta iota.
  unfold try_except, mbind, Py_bind, lift, session_user_item.
  rewrite (files_with_id_filter _ _ _ Hkey).
  destruct (filter _ (corpus_files corpus)) as [|cf rest]; [discriminate |].
  injection Hhead as ->. rewrite Huser0.
  pose proof (authorizedToAccessCorpusFile_iff h user corpusFile) as Hiff.
  destruct (authorizedToAccessCorpusFile h user corpusFile).
  - split; [done |]. intros Hno. destruct Hno. by apply Hiff.
  - split; [| done]. intros Hyes. apply Hiff in Hyes. discriminate.
Qed.

(** *** Operations that touch files only *)

Lemma set_filesystem_same w : set_filesystem (filesystem w) w = w.
Proof. by destruct w. Qed.

Lemma files_only_ret {A} (a : A) : touches_files_only (mret a : Py A).
Proof. intros w. exists (filesystem w). cbn. by rewrite set_filesystem_same. Qed.

Lemma files_only_lift {A} (r : res A) : touches_files_only (lift r).
Proof. intros w. exists (filesystem w). cbn. by rewrite set_filesystem_same. Qed.

Lemma files_only_bind {A B} (m : Py A) (f : A → Py B) :
  touches_files_only m → (∀ a, touches_files_only (f a)) → touches_files_only (m ≫= f).
Proof.
  intros Hm Hf w. unfold mbind, Py_bind. destruct (Hm w) as [fs Hfs].
  destruct (m w) as [[a|e] w1]; cbn in Hfs; subst w1; [| by exists fs].
  destruct (Hf a (set_filesystem fs w)) as [fs' ->]. by exists fs'.
Qed.

Lemma files_only_codecs_open_w p : touches_files_only (codecs_open_w p).
Proof.
  intros w. unfold codecs_open_w.
  destruct (filesystem w !! removelast p) as [[|]|], (filesystem w !! p) as [[|]|];
    cbn; eauto; exists (filesystem w); by rewrite set_filesystem_same.
Qed.

Lemma files_only_file_write p s : touches_files_only (file_write p s).
Proof.
  intros w. unfold file_write.
  destruct (filesystem w !! p) as [[|]|]; cbn; eauto;
    exists (filesystem w); by rewrite set_filesystem_same.
Qed.

Lemma files_only_rmtree p : touches_files_only (rmtree p).
Proof.
  intros w. unfold rmtree.
  destruct (filesystem w !! p) as [[|]|]; cbn; eauto;
    exists (filesystem w); by rewrite set_filesystem_same.
Qed.

Lemma files_only_for_each {A S} (body : S → A → Py S) l :
  (∀ s x, touches_files_only (body s x)) → ∀ s, touches_files_only (for_each body l s).
Proof.
  intros Hbody. induction l as [|x l IH]; intros s; cbn [for_each].
  - apply files_only_ret.
  - apply files_only_bind; [apply Hbody | apply IH].
Qed.

Lemma files_only_write_form wr p r form : touches_files_only (write_form wr p r form).
Proof.
  unfold write_form. apply files_only_bind; [apply files_only_lift |]. intros s.
  apply files_only_bind; [apply files_only_file_write |]. intros []. apply files_only_ret.
Qed.

(** Writing the forms changes the file system and nothing else. *)
Lemma files_only_write_forms corpus format_ p r :
  touches_files_only (write_forms h corpus format_ p r).
Proof.
  unfold write_forms. apply files_only_bind; [apply files_only_lift |]. intros fmt.
  destruct (corpus_formSearch corpus).
  - apply files_only_bind; [apply files_only_lift |]. intros forms.
    apply files_only_bind; [apply files_only_codecs_open_w |]. intros [].
    apply files_only_for_each. intros. apply files_only_write_form.
  - apply files_only_bind; [apply files_only_lift |]. intros refs.
    apply files_only_bind; [apply files_only_lift |]. intros pairs.
    apply files_only_bind; [apply files_only_codecs_open_w |]. intros [].
    apply files_only_for_each. intros.
    apply files_only_bind; [apply files_only_lift |]. intros. apply files_only_write_form.
Qed.

(** X4: a format that [h.corpusFormats] does not have makes [writeToFile]
    raise [KeyError] when it computes the file path, before its first
    [try]: no 400 response is built and the state is as it was. *)
Theorem writeToFile_unknown_format (corpus : Corpus) (format_ : string) (w : World) :
  corpusFormats h !! format_ = None →
  writeToFile h corpus format_ w = (Raise (KeyError format_), w).
Proof.
  intros Hnone. rewrite writeToFile_cases. unfold getCorpusFilePath. by rewrite Hnone.
Qed.


(** X6: if compressing touches files only, [writeToFile] commits only on
    success: whenever it does not return the corpus, the rows, the
    backups, the loaded objects and the pending lists of the session are
    as they were. *)
Theorem writeToFile_commits_only_on_success (corpus : Corpus) (format_ : string)
    (w : World) :
  (∀ p, touches_files_only (compressFile h p)) →
  (∃ c', (writeToFile h corpus format_ w).1 = Ok (JCorpus c')) ∨
  (let w' := (writeToFile h corpus format_ w).2 in
   table_corpus w' = table_corpus w ∧
   table_corpusbackup w' = table_corpusbackup w ∧
   session_identity w' = session_identity w ∧
   session_new w' = session_new w ∧
   session_deleted w' = session_deleted w).
Proof.
  intros Hcompress. rewrite writeToFile_cases.
  destruct (getCorpusFilePath h corpus format_) as [p|e]; [| by right]. cbv zeta.
  destruct (files_only_write_forms corpus format_ p false w) as [fs1 Hfs1].
  destruct (write_forms h corpus format_ p false w) as [[r|e] w1]; cbn in Hfs1; subst w1.
  2:{ right. destruct (files_only_rmtree p (set_filesystem fs1 w)) as [fs2 ->]. done. }
  destruct (Hcompress p (set_filesystem fs1 w)) as [fs2 Hfs2].
  destruct (compressFile h p (set_filesystem fs1 w)) as [[[]|e] w2]; cbn in Hfs2; subst w2.
  2:{ right. destruct (files_only_rmtree p (set_filesystem fs2 (set_filesystem fs1 w)))
        as [fs3 ->]. done. }
  cbn [session_user set_filesystem].
  destruct (session_user w) as [user|]; [left; by eexists |].
  right. destruct (files_only_rmtree p (set_filesystem fs2 (set_filesystem fs1 w)))
    as [fs3 ->]. done.
Qed.


(** *** [updateCorpus] and [update] *)

Lemma setAttr_cases {A} `{EqDecision A} (get : Corpus → A) (set : A → Corpus → Corpus)
    obj value changed :
  (∀ c, set (get c) c = c) →
  setAttr get set obj value changed = (set value obj, bool_decide (get obj ≠ value) || changed).
Proof.
  intros Hid. unfold setAttr. case_bool_decide as Hne; [done |].
  by rewrite <- Hne, Hid.
Qed.

Lemma truthy_no_None {A} (l : list (option A)) : None ∉ truthy l.
Proof. unfold truthy. intros Hin. apply list_elem_of_filter in Hin as [[x Hx] _]. done. Qed.

Lemma truthy_subseteq {A} (l : list (option A)) : truthy l ⊆ l.
Proof. unfold truthy. intros x Hin. by apply list_elem_of_filter in Hin as [_ ?]. Qed.

(** The list that the comparison of the submitted entries leaves on the
    corpus is the submitted list without its [None] entries. *)
Lemma assigned_truthy {A} `{EqDecision A} (l : list (option A)) :
  (if set_ne (truthy l) l then truthy l else l) = truthy l.
Proof.
  destruct (decide (None ∈ l)) as [Hin|Hno].
  - unfold set_ne. rewrite bool_decide_eq_false_2; [done |].
    intros [_ Hsub]. by apply (truthy_no_None l), Hsub.
  - rewrite (truthy_id l Hno). by destruct (set_ne l l).
Qed.

(** [updateCorpus] as one case analysis: the attributes it assigns, and
    when it reports a change. *)
Lemma updateCorpus_cases corpus data w :
  let assigned :=
    set_tags (truthy (data_tags data))
      (set_forms (truthy (data_forms data))
         (set_formSearch (data_formSearch data)
            (set_content (normalize h (data_content data))
               (set_description (normalize h (data_description data))
                  (set_name (normalize h (data_name data)) corpus))))) in
  let changed :=
    bool_decide (corpus_name corpus ≠ normalize h (data_name data))
    || bool_decide (corpus_description corpus ≠ normalize h (data_description data))
    || bool_decide (corpus_content corpus ≠ normalize h (data_content data))
    || bool_decide (corpus_formSearch corpus ≠ data_formSearch data)
    || set_ne (truthy (data_forms data)) (data_forms data)
    || set_ne (truthy (data_tags data)) (data_tags data) in
  let w1 := set_session_identity (<[corpus_id corpus := assigned]> (session_identity w)) w in
  updateCorpus h corpus data w =
  if changed then
    match session_user w with
    | None => (Raise (KeyError "user"), w1)
    | Some user =>
        let updated := set_datetimeModified (clock w) (set_modifier (Some user) assigned) in
        (Ok (Some updated),
         set_session_identity (<[corpus_id corpus := updated]> (session_identity w)) w)
    end
  else (Ok None, w1).
Proof.
  intros assigned changed w1. subst assigned changed w1. unfold updateCorpus.
  rewrite !setAttr_cases by (by intros []). cbn [fst snd].
  cbn [corpus_name corpus_description corpus_content corpus_formSearch corpus_tags corpus_forms
       set_name set_description set_content set_formSearch set_tags set_forms].
  pose proof (assigned_truthy (data_forms data)) as Hforms.
  pose proof (assigned_truthy (data_tags data)) as Htags.
  destruct (set_ne (truthy (data_forms data)) (data_forms data));
    cbn [corpus_tags corpus_forms set_tags set_forms];
    destruct (set_ne (truthy (data_tags data)) (data_tags data));
    rewrite <- ?Hforms, <- ?Htags;
    destruct (bool_decide (corpus_name corpus ≠ _)),
      (bool_decide (corpus_description corpus ≠ _)),
      (bool_decide (corpus_content corpus ≠ _)),
      (bool_decide (corpus_formSearch corpus ≠ _));
    unfold mbind, Py_bind, setattr_obj, modify, session_user_item, h_now, gets, mret, Py_ret;
    cbn; destruct (session_user w); cbn; rewrite ?insert_insert_eq; reflexivity.
Qed.

(** X8: whatever the outcome, [updateCorpus] leaves on the corpus object
    the submitted tags and forms without their [None] entries, also when
    it finds the data not new; no [None] stays in either list. *)
Theorem updateCorpus_drops_None (corpus : Corpus) (data : Data) (w : World) :
  ∃ c,
    session_identity ((updateCorpus h corpus data w).2) !! corpus_id corpus = Some c ∧
    corpus_tags c = truthy (data_tags data) ∧
    corpus_forms c = truthy (data_forms data) ∧
    (None ∉ corpus_tags c) ∧ (None ∉ corpus_forms c).
Proof.
  rewrite updateCorpus_cases. cbv zeta.
  destruct (_ || _); [destruct (session_user w) |]; eexists;
    (split; [apply lookup_insert_eq |]); repeat split; apply truthy_no_None.
Qed.

(** X9: when a scalar attribute of the submitted data (normalized name,
    description or content, or the form search) differs from the corpus
    and a user is logged in, [updateCorpus] returns the corpus with the
    four submitted values, the user as modifier and the time of the call
    as modification time; id, UUID, files, enterer and time of entry are
    kept. *)
Theorem updateCorpus_accepts_change (corpus : Corpus) (data : Data) (user : User)
    (w : World) :
  corpus_name corpus ≠ normalize h (data_name data)
  ∨ corpus_description corpus ≠ normalize h (data_description data)
  ∨ corpus_content corpus ≠ normalize h (data_content data)
  ∨ corpus_formSearch corpus ≠ data_formSearch data →
  session_user w = Some user →
  ∃ c',
    updateCorpus h corpus data w
    = (Ok (Some c'),
       set_session_identity (<[corpus_id corpus := c']> (session_identity w)) w) ∧
    corpus_name c' = normalize h (data_name data) ∧
    corpus_description c' = normalize h (data_description data) ∧
    corpus_content c' = normalize h (data_content data) ∧
    corpus_formSearch c' = data_formSearch data ∧
    corpus_modifier c' = Some user ∧
    corpus_datetimeModified c' = clock w ∧
    corpus_id c' = corpus_id corpus ∧
    corpus_UUID c' = corpus_UUID corpus ∧
    corpus_files c' = corpus_files corpus ∧
    corpus_enterer c' = corpus_enterer corpus ∧
    corpus_datetimeEntered c' = corpus_datetimeEntered corpus.
Proof.
  intros Hchange Huser. rewrite updateCorpus_cases. cbv zeta. rewrite Huser.
  assert (bool_decide (corpus_name corpus ≠ normalize h (data_name data))
          || bool_decide (corpus_description corpus ≠ normalize h (data_description data))
          || bool_decide (corpus_content corpus ≠ normalize h (data_content data))
          || bool_decide (corpus_formSearch corpus ≠ data_formSearch data) = true) as ->.
  { destruct Hchange as [H1 | [H2 | [H3 | H4]]].
    - by rewrite (bool_decide_eq_true_2 _ H1).
    - rewrite (bool_decide_eq_true_2 _ H2). by rewrite orb_true_r.
    - rewrite (bool_decide_eq_true_2 _ H3). by rewrite orb_true_r.
    - rewrite (bool_decide_eq_true_2 _ H4). by rewrite orb_true_r. }
  cbn [orb]. eexists. split; [reflexivity |]. by repeat split.
Qed.

Lemma updateCorpus_Some_inv corpus data w c' w' :
  updateCorpus h corpus data w = (Ok (Some c'), w') →
  w' = set_session_identity (<[corpus_id corpus := c']> (session_identity w)) w ∧
  corpus_id c' = corpus_id corpus.
Proof.
  rewrite updateCorpus_cases. cbv zeta.
  destruct (_ || _); [destruct (session_user w) |]; try discriminate.
  by intros [= <- <-].
Qed.

Lemma Query_get_found key w c w0 :
  consistent w →
  Query_get key w = (Ok (Some c), w0) →
  corpus_id c = key ∧ session_identity w0 !! key = Some c ∧
  session_deleted w0 = session_deleted w ∧ table_corpus w0 = table_corpus w.
Proof.
  intros [Htable Hidentity]. unfold Query_get.
  destruct (session_identity w !! key) as [c0|] eqn:Hi.
  { intros [= <- <-]. split; [by apply Hidentity | done]. }
  destruct (table_corpus w !! key) as [c0|] eqn:Ht; [| discriminate].
  intros [= <- <-]. split; [by apply Htable |]. cbn. by rewrite lookup_insert_eq.
Qed.

(** X10: a successful update is committed and can be read back: in a
    consistent store with no pending deletion, where the database finds
    the corpus under the integer the route id denotes, [show] with the
    same id returns exactly the corpus that [update] returned, which is
    also the committed row. *)
Theorem update_then_show (id request_body : string) (key : Z) (c' : Corpus)
    (w w' : World) :
  int_ id = Ok key →
  primary_key_of h id = Some key →
  consistent w →
  session_deleted w = [] →
  CorporaController.update h id request_body w = (Ok (JCorpus c'), w') →
  CorporaController.show h id w' = (Ok (JCorpus c'), w') ∧
  table_corpus w' !! key = Some c'.
Proof.
  intros Hkey Hpk Hcons Hdel H.
  apply update_inv in H
    as (key' & c & w0 & values & forms & data & w1 & Hkey' & Hget & _ & _ & _ & Hu & ->).
  rewrite Hkey in Hkey'. injection Hkey' as <-.
  apply Query_get_found in Hget as (Hid & _ & Hdel0 & _); [| done].
  apply updateCorpus_Some_inv in Hu as [-> Hid'].
  rewrite Hdel in Hdel0.
  assert (session_identity
            (flush (set_session_new
                      (session_new (set_session_identity
                                      (<[corpus_id c := c']> (session_identity w0)) w0)
                       ++ [{| backup_dict := c |}])
                      (set_session_identity (<[corpus_id c := c']> (session_identity w0)) w0)))
          !! key = Some c') as Hloaded.
  { cbn. rewrite Hdel0. cbn. rewrite Hid. apply lookup_insert_eq. }
  split.
  - unfold CorporaController.show, Query_get_route. rewrite Hpk.
    unfold mbind, Py_bind, Query_get. by rewrite Hloaded.
  - cbn. rewrite Hdel0. cbn. apply lookup_union_Some_l. rewrite Hid. apply lookup_insert_eq.
Qed.

Lemma update_outcomes (id request_body : string) (w : World) :
  (∃ c', (CorporaController.update h id request_body w).1 = Ok (JCorpus c')) ∨
  (let w' := (CorporaController.update h id request_body w).2 in
   table_corpus w' = table_corpus w ∧
   table_corpusbackup w' = table_corpusbackup w ∧
   session_new w' = session_new w ∧
   filesystem w' = filesystem w).
Proof.
  destruct (CorporaController.update h id request_body w) as [r w'] eqn:Hrun. cbn [fst snd].
  revert Hrun. unfold CorporaController.update, mbind at 1, Py_bind at 1, lift at 1.
  destruct (int_ id) as [key|e]; [| intros [= <- <-]; by right].
  unfold mbind at 1, Py_bind at 1.
  destruct (Query_get key w) as [[[c|]|e] w0] eqn:Hget;
    apply Query_get_frame in Hget as (Hb & Hn & _ & Ht & Hf & _);
    [| intros [= <- <-]; right; cbn; repeat split; congruence ..].
  unfold try_except, mbind at 1, Py_bind at 1, lift at 1.
  destruct (json_loads h request_body) as [values|e].
  2:{ destruct e; intros [= <- <-]; right; cbn; repeat split; congruence. }
  unfold mbind at 1, Py_bind at 1, lift at 1.
  destruct (getIdsOfFormsReferenced h _) as [forms|e].
  2:{ destruct e; intros [= <- <-]; right; cbn; repeat split; congruence. }
  unfold mbind at 1, Py_bind at 1, lift at 1.
  destruct (CorpusSchema_to_python h _ id) as [data|e].
  2:{ destruct e; intros [= <- <-]; right; cbn; repeat split; congruence. }
  unfold mbind at 1, Py_bind at 1.
  destruct (updateCorpus h c data w0) as [[[c1|]|e] w1] eqn:Hu;
    apply updateCorpus_frame in Hu as (Hb1 & Hn1 & _ & Ht1 & Hf1 & _).
  - intros [= <- <-]. left. by eexists.
  - intros [= <- <-]. right. cbn. repeat split; congruence.
  - destruct e; intros [= <- <-]; right; cbn; repeat split; congruence.
Qed.

(** X11: [update] commits only when it returns the corpus: in every other
    outcome (404, 400 for a body that does not decode, for invalid data or
    for data that are not new, or an exception) the rows, the backups and
    the files are as they were and no backup is pending. *)
Theorem update_commits_only_on_success (id request_body : string) (w : World) :
  (∃ c', (CorporaController.update h id request_body w).1 = Ok (JCorpus c')) ∨
  (let w' := (CorporaController.update h id request_body w).2 in
   table_corpus w' = table_corpus w ∧
   table_corpusbackup w' = table_corpusbackup w ∧
   session_new w' = session_new w ∧
   filesystem w' = filesystem w).
Proof. apply update_outcomes. Qed.

(** X12: for an existing corpus, a request body that does not decode makes
    [update] and [writetofile] answer with status 400 and the JSON decode
    error response, and data that the schema rejects make them answer with
    status 400 and the errors of the schema; the state is as the lookup
    left it. *)
Theorem bad_request_answers_400 (id request_body : string) (key : Z) (corpus : Corpus)
    (w w0 : World) :
  int_ id = Ok key →
  Query_get key w = (Ok (Some corpus), w0) →
  Query_get_route h id w = (Ok (Some corpus), w0) →
  (json_loads h request_body = Raise JSONDecodeError →
   CorporaController.update h id request_body w
     = (Ok JJSONDecodeErrorResponse, set_status_int 400 w0) ∧
   CorporaController.writetofile h id request_body w
     = (Ok JJSONDecodeErrorResponse, set_status_int 400 w0)) ∧
  (∀ values forms errors,
     json_loads h request_body = Ok values →
     getIdsOfFormsReferenced h (default (VStr "") (values !! "content")) = Ok forms →
     CorpusSchema_to_python h (<["forms" := VIds (Some <$> forms)]> values) id
       = Raise (Invalid errors) →
     CorporaController.update h id request_body w
       = (Ok (JErrors errors), set_status_int 400 w0)) ∧
  (∀ values errors,
     json_loads h request_body = Ok values →
     CorpusFormatSchema_to_python h values = Raise (Invalid errors) →
     CorporaController.writetofile h id request_body w
       = (Ok (JErrors errors), set_status_int 400 w0)).
Proof.
  intros Hkey Hget Hroute.
  unfold CorporaController.update, CorporaController.writetofile.
  erewrite (bind_Ok (lift (int_ id))) by (unfold lift; by rewrite Hkey).
  erewrite (bind_Ok (Query_get key)) by exact Hget.
  erewrite (bind_Ok (Query_get_route h id)) by exact Hroute.
  cbv beta iota. unfold try_except, mbind, Py_bind, lift.
  split; [| split].
  - intros ->. done.
  - intros values forms errors -> -> ->. done.
  - intros values errors -> ->. done.
Qed.

(** *** Directories, export paths and deletion *)

Lemma rmtree_directory p w :
  filesystem w !! p = Some Dir →
  rmtree p w
  = (Ok tt, set_filesystem (filter (λ kv, ¬ (p `prefix_of` kv.1)) (filesystem w)) w).
Proof. intros Hp. unfold rmtree. by rewrite Hp. Qed.

Lemma rmtree_not_directory p w :
  filesystem w !! p ≠ Some Dir → ∃ e, rmtree p w = (Raise e, w).
Proof. intros Hp. unfold rmtree. destruct (filesystem w !! p) as [[|]|]; by eauto. Qed.

Lemma lookup_removed_tree (p q : path) (fs : gmap path Node) :
  filter (λ kv, ¬ (p `prefix_of` kv.1)) fs !! q
  = if decide (p `prefix_of` q) then None else fs !! q.
Proof.
  case_decide as Hpre.
  - apply map_lookup_filter_None. right. intros x _ Hno. by apply Hno.
  - destruct (fs !! q) as [x|] eqn:Hq.
    + by apply map_lookup_filter_Some.
    + apply map_lookup_filter_None. by left.
Qed.

(** X13: [removeCorpusDirectory] never raises. If the directory of the
    corpus exists, it returns its path and removes the directory with
    every path beneath it, and no other path; if the path is absent or is
    a regular file, it returns [None] and changes nothing. *)
Theorem removeCorpusDirectory_removes_tree (corpus : Corpus) (w : World) :
  let dir := getCorpusDirPath h corpus in
  let run := removeCorpusDirectory h corpus w in
  (filesystem w !! dir = Some Dir →
   ∃ fs, run = (Ok (Some dir), set_filesystem fs w) ∧
         ∀ q, fs !! q = if decide (dir `prefix_of` q) then None else filesystem w !! q) ∧
  (filesystem w !! dir ≠ Some Dir → run = (Ok None, w)).
Proof.
  intros dir run. subst run. unfold removeCorpusDirectory, try_except, mbind, Py_bind.
  fold dir. split.
  - intros Hdir. rewrite (rmtree_directory _ _ Hdir). eexists. split; [done |].
    intros q. apply lookup_removed_tree.
  - intros Hno. by destruct (rmtree_not_directory _ _ Hno) as [e ->].
Qed.

Lemma files_only_removeCorpusDirectory corpus :
  touches_files_only (removeCorpusDirectory h corpus).
Proof.
  intros w. unfold removeCorpusDirectory, try_except, mbind, Py_bind.
  destruct (files_only_rmtree (getCorpusDirPath h corpus) w) as [fs Hfs].
  destruct (rmtree _ w) as [[[]|e] w1]; cbn in Hfs; subst w1; by exists fs.
Qed.

Lemma corpus_directory_name_inj (i j : Z) :
  "corpus_" +:+ pretty i = "corpus_" +:+ pretty j → i = j.
Proof. intros Heq. apply String.app_inj in Heq. by apply (inj pretty). Qed.

(** X14: the export file of a corpus lies directly in the directory of the
    corpus, and corpora with different ids have different directories,
    neither of which holds an export file of the other. *)
Theorem export_paths_are_separate (c1 c2 : Corpus) (format1 format2 : string)
    (p1 p2 : path) :
  getCorpusFilePath h c1 format1 = Ok p1 →
  getCorpusFilePath h c2 format2 = Ok p2 →
  removelast p1 = getCorpusDirPath h c1 ∧
  getCorpusDirPath h c1 `prefix_of` p1 ∧
  (corpus_id c1 ≠ corpus_id c2 →
   getCorpusDirPath h c1 ≠ getCorpusDirPath h c2 ∧
   ¬ getCorpusDirPath h c1 `prefix_of` p2 ∧
   p1 ≠ p2).
Proof.
  unfold getCorpusFilePath.
  destruct (corpusFormats h !! format1) as [fmt1|]; [| discriminate].
  destruct (corpusFormats h !! format2) as [fmt2|]; [| discriminate].
  intros [= <-] [= <-]. split; [apply removelast_last |].
  split; [by eexists |].
  intros Hne. unfold getCorpusDirPath. repeat split.
  - intros Heq. apply app_inv_head in Heq.
    apply Hne, corpus_directory_name_inj. congruence.
  - rewrite <- (assoc_L (++)). intros Hpre. apply prefix_app_inv in Hpre.
    apply prefix_cons_inv_1 in Hpre. by apply Hne, corpus_directory_name_inj.
  - rewrite <- !(assoc_L (++)). intros Heq. apply app_inv_head in Heq.
    apply Hne, corpus_directory_name_inj. cbn in Heq. congruence.
Qed.


Lemma foldr_delete_lookup_in (m : gmap Z Corpus) l key :
  key ∈ l → foldr delete m l !! key = None.
Proof.
  induction l as [|x l IH]; intros Hin; [inversion Hin |]. cbn.
  destruct (decide (x = key)) as [->|Hne]; [apply lookup_delete_eq |].
  rewrite lookup_delete_ne by done. apply IH.
  apply elem_of_cons in Hin as [? | ?]; [congruence | done].
Qed.

Lemma Query_get_route_found id key w c w0 :
  primary_key_of h id = Some key →
  consistent w →
  Query_get_route h id w = (Ok (Some c), w0) →
  corpus_id c = key ∧ session_identity w0 !! key = Some c ∧
  session_deleted w0 = session_deleted w ∧ table_corpus w0 = table_corpus w.
Proof.
  intros Hpk Hcons. unfold Query_get_route. rewrite Hpk. by apply Query_get_found.
Qed.

Lemma removeCorpusDirectory_tree corpus w1 w0 r w' :
  filesystem w0 !! getCorpusDirPath h corpus = Some Dir →
  filesystem w1 = filesystem w0 →
  removeCorpusDirectory h corpus w1 = (r, w') →
  ∃ fs, w' = set_filesystem fs w1 ∧
        ∀ q, fs !! q = if decide (getCorpusDirPath h corpus `prefix_of` q)
                       then None else filesystem w0 !! q.
Proof.
  intros Hdir Hsame. unfold removeCorpusDirectory, try_except, mbind, Py_bind.
  rewrite <- Hsame in Hdir |- *. rewrite (rmtree_directory _ _ Hdir). intros [= <- <-].
  eexists. split; [done |]. intros q. apply lookup_removed_tree.
Qed.

(** X15: a deleted corpus is gone: after a successful [delete] in a
    consistent store, neither a row nor a loaded object has its key, [show]
    with the same id answers 404, and, if the directory of the corpus
    existed, no path in or beneath it is left. *)
Theorem delete_then_show (id : string) (key : Z) (c : Corpus) (w w' : World) :
  primary_key_of h id = Some key →
  consistent w →
  CorporaController.delete h id w = (Ok (JCorpus c), w') →
  corpus_id c = key ∧
  table_corpus w' !! key = None ∧
  session_identity w' !! key = None ∧
  CorporaController.show h id w'
  = (Ok (JError ("There is no corpus with id " +:+ id)), set_status_int 404 w') ∧
  (filesystem w !! getCorpusDirPath h c = Some Dir →
   ∀ q, getCorpusDirPath h c `prefix_of` q → filesystem w' !! q = None).
Proof.
  intros Hpk Hcons H. apply delete_inv in H as (w0 & w1 & r & Hget & -> & Hr).
  pose proof Hget as Hfs0. apply Query_get_route_frame in Hfs0 as (_ & _ & _ & _ & Hfs0 & _).
  apply (Query_get_route_found _ _ _ _ _ Hpk Hcons) in Hget as (Hid & _ & _ & _).
  assert (key ∈ session_deleted w0 ++ [corpus_id c]) as Hin by (rewrite Hid; set_solver).
  split; [done |].
  destruct (decide (filesystem w !! getCorpusDirPath h c = Some Dir)) as [Hdir|Hno].
  - assert (filesystem
              (flush (set_session_deleted (session_deleted w0 ++ [corpus_id c])
                        (set_session_new (session_new w0 ++ [{| backup_dict := c |}]) w0)))
            = filesystem w) as Hfs1 by done.
    destruct (removeCorpusDirectory_tree c _ _ _ _ Hdir Hfs1 Hr) as (fs & -> & Hgone).
    cbn. rewrite !foldr_delete_lookup_in by done. repeat split; try done.
    + unfold CorporaController.show, Query_get_route. rewrite Hpk.
      unfold mbind, Py_bind, Query_get. cbn. by rewrite !foldr_delete_lookup_in by done.
    + intros _ q Hpre. rewrite Hgone. by rewrite decide_True.
  - destruct (files_only_removeCorpusDirectory c
                (flush (set_session_deleted (session_deleted w0 ++ [corpus_id c])
                          (set_session_new (session_new w0 ++ [{| backup_dict := c |}]) w0))))
      as [fs Hfs].
    rewrite Hr in Hfs. cbn [snd] in Hfs. subst w'.
    cbn. rewrite !foldr_delete_lookup_in by done. repeat split; try done.
    unfold CorporaController.show, Query_get_route. rewrite Hpk.
    unfold mbind, Py_bind, Query_get. cbn. by rewrite !foldr_delete_lookup_in by done.
Qed.


(** *** Backups *)




(** *** [create] *)

Variable n : Creation.

(** X18: a request body that does not decode makes [create] answer with
    status 400 and the JSON decode error response, and data that the
    schema rejects make it answer with status 400 and the errors of the
    schema; apart from the status the state is as it was: no corpus is
    stored and no directory is made. *)
Theorem create_bad_request (request_body : string) (w : World) :
  (json_loads h request_body = Raise JSONDecodeError →
   create h n request_body w = (Ok JJSONDecodeErrorResponse, set_status_int 400 w)) ∧
  (∀ values forms errors,
     json_loads h request_body = Ok values →
     getFormReferences_of h (default (VStr "") (values !! "content")) = Ok forms →
     CorpusSchema_to_python_new n (<["forms" := VIds (Some <$> forms)]> values)
       = Raise (Invalid errors) →
     create h n request_body w = (Ok (JErrors errors), set_status_int 400 w)).
Proof.
  unfold create, try_except, mbind, Py_bind, lift. split.
  - by intros ->.
  - by intros values forms errors -> -> ->.
Qed.

Lemma foldr_delete_lookup_notin (m : gmap Z Corpus) l key :
  key ∉ l → foldr delete m l !! key = m !! key.
Proof.
  induction l as [|x l IH]; intros Hnot; [done |]. cbn.
  apply not_elem_of_cons in Hnot as [Hne Hnot].
  rewrite lookup_delete_ne by done. by apply IH.
Qed.


End MoreActionProperties.

(** ** The syntactic category model *)

Section SyntacticCategoryProperties.

Import SyntacticCategory.

Lemma init_from (self : gmap string Value) (kwargs : list (string * Value)) :
  NoDup kwargs.*1 →
  (∀ k, k ∈ kwargs.*1 → self !! k = None) →
  foldl (λ self kv, <[kv.1 := kv.2]> self) self kwargs = list_to_map kwargs ∪ self.
Proof.
  revert self. induction kwargs as [|[k v] kwargs IH]; intros self Hnodup Hfresh; cbn.
  - by rewrite (left_id_L ∅ (∪)).
  - apply NoDup_cons in Hnodup as [Hk Hnodup]. rewrite IH; [| done |].
    + rewrite insert_union_singleton_l, (assoc_L (∪)).
      rewrite <- insert_union_singleton_r; [done |].
      by apply not_elem_of_list_to_map_1.
    + intros k' Hin. rewrite lookup_insert_ne; [apply Hfresh; by right |].
      intros ->. done.
Qed.

Lemma init_list_to_map (kwargs : list (string * Value)) :
  NoDup kwargs.*1 → __init__ kwargs = list_to_map kwargs.
Proof.
  intros Hnodup. unfold __init__. rewrite init_from; [| done | done].
  by rewrite (right_id_L ∅ (∪)).
Qed.

(** X20: the object that the constructor builds does not depend on the
    order in which the keyword arguments are iterated. *)
Theorem init_order_irrelevant (kwargs kwargs' : list (string * Value)) :
  NoDup kwargs.*1 →
  kwargs ≡ₚ kwargs' →
  __init__ kwargs = __init__ kwargs'.
Proof.
  intros Hnodup Hperm.
  assert (NoDup kwargs'.*1) as Hnodup' by (by rewrite <- Hperm).
  rewrite !init_list_to_map by done. by apply list_to_map_proper.
Qed.

(** X21: the dictionary of a constructed object has exactly the six
    columns as keys; each holds the keyword argument of that name, or
    [None] if there was none, and keyword arguments that are not columns
    do not appear. *)
Theorem get_dict_of_init (kwargs : list (string * Value)) (name : string) :
  NoDup kwargs.*1 →
  get_dict (__init__ kwargs) !! name
  = if decide (name ∈ columns)
    then Some (default VNull (list_to_map (M := gmap string Value) kwargs !! name))
    else None.
Proof.
  intros Hnodup. rewrite init_list_to_map by done.
  unfold get_dict, column, columns.
  case_decide as Hin.
  - repeat (apply elem_of_cons in Hin as [-> | Hin]; [by simplify_map_eq |]).
    by apply elem_of_nil in Hin.
  - repeat (rewrite lookup_insert_ne; [| intros <-; apply Hin; set_solver]).
    apply lookup_empty.
Qed.

(** X22: rebuilding an object from its dictionary gives an object with the
    same dictionary. *)
Theorem get_dict_round_trip (self : gmap string Value) :
  get_dict (__init__ (map_to_list (get_dict self))) = get_dict self.
Proof.
  rewrite init_list_to_map by apply NoDup_fst_map_to_list.
  rewrite list_to_map_to_list.
  unfold get_dict, column. by simplify_map_eq.
Qed.

End SyntacticCategoryProperties.

(** ** [int] reads what [%d] writes *)

Section DecimalLiterals.

Lemma is_nat_pretty_N_char (d : N) :
  (d < 10)%N → Ascii.is_nat (pretty_N_char d) = Some (N.to_nat d).
Proof.
  intros Hlt.
  assert (d = 0 ∨ d = 1 ∨ d = 2 ∨ d = 3 ∨ d = 4 ∨ d = 5 ∨ d = 6 ∨ d = 7 ∨ d = 8 ∨ d = 9)%N
    as Hcases by lia.
  repeat (destruct Hcases as [-> | Hcases]; [reflexivity |]). by subst d.
Qed.

Lemma digit_not_space (a : ascii) :
  is_Some (Ascii.is_nat a) → Ascii.is_space a = false.
Proof. destruct a as [[] [] [] [] [] [] [] []]; cbn; intros [d Hd]; done. Qed.

Lemma digits_value_pretty_N_go (x : N) :
  ∀ s, digits_value 0 (pretty_N_go x s) = digits_value (Z.of_N x) s.
Proof.
  induction (N.lt_wf_0 x) as [x _ IH]. intros s.
  destruct (decide (0 < x)%N) as [Hpos|Hzero].
  - rewrite pretty_N_go_step by done. rewrite IH by (by apply N.div_lt).
    cbn [digits_value]. rewrite is_nat_pretty_N_char by (by apply N.mod_lt).
    f_equal. rewrite N_nat_Z. pose proof (N.div_mod x 10). lia.
  - assert (x = 0%N) as -> by lia. by rewrite pretty_N_go_0.
Qed.

Lemma digits_only_pretty_N_go (x : N) :
  ∀ s, digits_only s = true → s ≠ "" ∨ (0 < x)%N →
       digits_only (pretty_N_go x s) = true ∧ pretty_N_go x s ≠ "".
Proof.
  induction (N.lt_wf_0 x) as [x _ IH]. intros s Hs Hne.
  destruct (decide (0 < x)%N) as [Hpos|Hzero].
  - rewrite pretty_N_go_step by done. apply IH; [by apply N.div_lt | | by left].
    cbn. rewrite is_nat_pretty_N_char by (by apply N.mod_lt).
    by rewrite bool_decide_eq_true_2 by eauto.
  - assert (x = 0%N) as -> by lia. rewrite pretty_N_go_0.
    destruct Hne as [? | ?]; [done | lia].
Qed.

Lemma digits_only_spaceless (s : string) : digits_only s = true → spaceless s = true.
Proof.
  induction s as [|a s IH]; [done |]. cbn. intros [Ha Hs]%andb_true_iff.
  apply bool_decide_eq_true in Ha. by rewrite (digit_not_space a Ha), IH.
Qed.

Lemma lstrip_spaceless (s : string) : spaceless s = true → lstrip s = s.
Proof. destruct s as [|a s]; [done |]. cbn. by destruct (Ascii.is_space a). Qed.

Lemma spaceless_rev_app (s t : string) :
  spaceless (String.rev_app s t) = spaceless s && spaceless t.
Proof.
  revert t. induction s as [|a s IH]; intros t; [done |]. cbn. rewrite IH. cbn.
  by destruct (Ascii.is_space a), (spaceless s), (spaceless t).
Qed.

Lemma rev_app_rev_app (s t u : string) :
  String.rev_app (String.rev_app s t) u = String.rev_app t (s +:+ u).
Proof.
  revert t u. induction s as [|a s IH]; intros t u; [done |]. cbn. by rewrite IH.
Qed.

Lemma strip_spaceless (s : string) : spaceless s = true → strip s = s.
Proof.
  intros Hs. unfold strip, String.rev. rewrite (lstrip_spaceless s Hs).
  rewrite lstrip_spaceless by (by rewrite spaceless_rev_app, Hs).
  rewrite rev_app_rev_app. apply app_text_empty.
Qed.

Lemma int_of_digits (s : string) (z : Z) :
  digits_only s = true → s ≠ "" → digits_value 0 s = Some z → int_ s = Ok z.
Proof.
  intros Hdigits Hne Hvalue. unfold int_.
  rewrite strip_spaceless by (by apply digits_only_spaceless).
  destruct s as [|a s]; [done |].
  assert (unsigned_literal (String a s) = Some z) as Hu by done.
  cbn in Hdigits. apply andb_true_iff in Hdigits as [Ha _].
  apply bool_decide_eq_true in Ha.
  destruct a as [[] [] [] [] [] [] [] []]; cbn in Ha;
    try (by destruct Ha); by rewrite Hu.
Qed.

Lemma int_pretty_N (x : N) : int_ (pretty x) = Ok (Z.of_N x).
Proof.
  unfold pretty, pretty_N. case_decide as Hx; [by subst x |].
  destruct (digits_only_pretty_N_go x "") as [Hdigits Hne]; [done | right; lia |].
  apply int_of_digits; [done | done |]. by rewrite digits_value_pretty_N_go.
Qed.

Lemma int_pretty (z : Z) : int_ (pretty z) = Ok z.
Proof.
  destruct z as [|p|p]; [done | apply (int_pretty_N (Npos p)) |].
  unfold pretty, pretty_Z. fold (pretty (A := positive)).
  change (pretty p) with (pretty (Npos p)).
  pose proof (int_pretty_N (Npos p)) as Hpos.
  unfold pretty, pretty_N in *. case_decide; [done |].
  destruct (digits_only_pretty_N_go (Npos p) "") as [Hdigits Hne]; [done | right; lia |].
  unfold int_. rewrite strip_spaceless.
  2:{ change (spaceless ("-" +:+ pretty_N_go (N.pos p) "")) with
        (spaceless (pretty_N_go (N.pos p) "")). by apply digits_only_spaceless. }
  change ("-" +:+ pretty_N_go (N.pos p) "") with (String "-" (pretty_N_go (N.pos p) "")).
  cbv iota beta.
  assert (unsigned_literal (pretty_N_go (N.pos p) "") = Some (Z.pos p)) as ->; [| done].
  unfold unsigned_literal. destruct (pretty_N_go (N.pos p) "") eqn:Hs; [done |].
  rewrite <- Hs. by rewrite digits_value_pretty_N_go.
Qed.

Variable h : Helpers.

(** X23: [update] finds the key in the decimal form that the routes and the
    messages use: for every integer key under which there is no corpus,
    [update] with the decimal rendering of the key as id answers with
    status 404 and the error that names it, and leaves the state as it
    was. *)
Theorem update_missing_integer_id (key : Z) (request_body : string) (w : World) :
  (Query_get key w).1 = Ok None →
  CorporaController.update h (pretty key) request_body w
  = (Ok (JError ("There is no corpus with id " +:+ pretty key)), set_status_int 404 w).
Proof.
  intros Hnone. exact (update_missing_corpus_404 h _ key request_body w (int_pretty key) Hnone).
Qed.

End DecimalLiterals.

(** ** The further properties at work on the installation *)

Lemma files_only_compress (p : path) : touches_files_only (Installation.compress p).
Proof.
  intros w. unfold Installation.compress.
  destruct (filesystem w !! p) as [[d|]|]; cbn; eauto;
    exists (filesystem w); by rewrite set_filesystem_same.
Qed.


Lemma consistent_world (c : Corpus) (user : User) :
  consistent (Installation.world c user).
Proof.
  split; intros key c0; cbn.
  - rewrite lookup_insert. case_decide; [by intros [= <-] | by rewrite lookup_empty].
  - by rewrite lookup_empty.
Qed.

Lemma missing_corpus_answers_404_witness :
  let w := Installation.world Installation.corpus1 Installation.admin in
  (Query_get_route Installation.h "7" w).1 = Ok None ∧
  let missing :=
    (Ok (JError ("There is no corpus with id " +:+ "7")), set_status_int 404 w) in
  CorporaController.show Installation.h "7" w = missing ∧
  CorporaController.delete Installation.h "7" w = missing ∧
  CorporaController.edit Installation.h "7" w = missing ∧
  CorporaController.writetofile Installation.h "7" "treebank" w = missing ∧
  CorporaController.servefile Installation.h "7" "5" w = missing.
Proof.
  intros w. split; [reflexivity |].
  apply (missing_corpus_answers_404 Installation.h "7" "5" "treebank" w). reflexivity.
Defined.

Lemma servefile_access_witness :
  let w := Installation.world Installation.corpus5 Installation.viewer in
  let w0 := (Query_get_route Installation.h "1" w).2 in
  let corpusFile := Installation.restricted_file in
  let user := Installation.viewer in
  Query_get_route Installation.h "1" w = (Ok (Some Installation.corpus5), w0) ∧
  int_ "5" = Ok 5 ∧
  head (filter (λ cf, cf_id cf = Some 5) (corpus_files Installation.corpus5))
    = Some corpusFile ∧
  session_user w = Some user ∧
  let granted :=
    cf_restricted corpusFile = false ∨ user_role user = "administrator"
    ∨ user ∈ getUnrestrictedUsers Installation.h in
  (granted →
   CorporaController.servefile Installation.h "1" "5" w
   = (Ok (FileAppBody (getCorpusDirPath Installation.h Installation.corpus5
                       ++ [cf_filename corpusFile +:+ ".gz"])), w0)) ∧
  (¬ granted →
   CorporaController.servefile Installation.h "1" "5" w
   = (Ok (JText (unauthorizedMsg Installation.h)), set_status_int 403 w0)).
Proof.
  intros w w0 corpusFile user.
  split; [vm_compute; reflexivity |]. split; [reflexivity |].
  split; [reflexivity |]. split; [reflexivity |].
  apply (servefile_access Installation.h "1" "5" w w0 Installation.corpus5 5 corpusFile user);
    [vm_compute; reflexivity | reflexivity | reflexivity | reflexivity].
Defined.

Lemma writeToFile_unknown_format_witness :
  let w := Installation.world Installation.corpus1 Installation.admin in
  corpusFormats Installation.h !! "csv" = None ∧
  writeToFile Installation.h Installation.corpus1 "csv" w = (Raise (KeyError "csv"), w).
Proof.
  intros w. split; [reflexivity |].
  apply (writeToFile_unknown_format Installation.h Installation.corpus1 "csv" w). reflexivity.
Defined.


Lemma writeToFile_commits_only_on_success_witness :
  let corpus := Installation.corpus2 in
  let w := Installation.world corpus Installation.admin in
  (∀ p, touches_files_only (compressFile Installation.h p)) ∧
  ((∃ c', (writeToFile Installation.h corpus "treebank" w).1 = Ok (JCorpus c')) ∨
   (let w' := (writeToFile Installation.h corpus "treebank" w).2 in
    table_corpus w' = table_corpus w ∧
    table_corpusbackup w' = table_corpusbackup w ∧
    session_identity w' = session_identity w ∧
    session_new w' = session_new w ∧
    session_deleted w' = session_deleted w)).
Proof.
  intros corpus w. split; [exact files_only_compress |].
  apply (writeToFile_commits_only_on_success Installation.h corpus "treebank" w).
  exact files_only_compress.
Defined.


Lemma updateCorpus_accepts_change_witness :
  let h := Installation.h in
  let corpus := Installation.corpus1 in
  let data := {| data_name := "Corpus of French"; data_description := "";
                 data_content := ""; data_formSearch := None;
                 data_tags := []; data_forms := [] |} in
  let user := Installation.admin in
  let w := Installation.world corpus user in
  (corpus_name corpus ≠ normalize h (data_name data)
   ∨ corpus_description corpus ≠ normalize h (data_description data)
   ∨ corpus_content corpus ≠ normalize h (data_content data)
   ∨ corpus_formSearch corpus ≠ data_formSearch data) ∧
  session_user w = Some user ∧
  ∃ c',
    updateCorpus h corpus data w
    = (Ok (Some c'),
       set_session_identity (<[corpus_id corpus := c']> (session_identity w)) w) ∧
    corpus_name c' = normalize h (data_name data) ∧
    corpus_description c' = normalize h (data_description data) ∧
    corpus_content c' = normalize h (data_content data) ∧
    corpus_formSearch c' = data_formSearch data ∧
    corpus_modifier c' = Some user ∧
    corpus_datetimeModified c' = clock w ∧
    corpus_id c' = corpus_id corpus ∧
    corpus_UUID c' = corpus_UUID corpus ∧
    corpus_files c' = corpus_files corpus ∧
    corpus_enterer c' = corpus_enterer corpus ∧
    corpus_datetimeEntered c' = corpus_datetimeEntered corpus.
Proof.
  intros h corpus data user w.
  split; [left; discriminate |]. split; [reflexivity |].
  apply (updateCorpus_accepts_change h corpus data user w); [left; discriminate | reflexivity].
Defined.

Lemma update_then_show_witness :
  let h := Installation.h in
  let w := Installation.world Installation.corpus1 Installation.admin in
  let c' := set_datetimeModified 20 (set_name "Corpus of French" Installation.corpus1) in
  let w' := (CorporaController.update h "1" "renamed" w).2 in
  int_ "1" = Ok 1 ∧
  primary_key_of h "1" = Some 1 ∧
  consistent w ∧
  session_deleted w = [] ∧
  CorporaController.update h "1" "renamed" w = (Ok (JCorpus c'), w') ∧
  CorporaController.show h "1" w' = (Ok (JCorpus c'), w') ∧
  table_corpus w' !! 1 = Some c'.
Proof.
  intros h w c' w'.
  split; [reflexivity |]. split; [reflexivity |]. split; [apply consistent_world |].
  split; [reflexivity |]. split; [vm_compute; reflexivity |].
  apply (update_then_show h "1" "renamed" 1 c' w w');
    [reflexivity | reflexivity | apply consistent_world | reflexivity | vm_compute; reflexivity].
Defined.

Lemma bad_request_answers_400_witness :
  let h := Installation.h in
  let w := Installation.world Installation.corpus1 Installation.admin in
  let w0 := (Query_get 1 w).2 in
  let corpus := Installation.corpus1 in
  int_ "1" = Ok 1 ∧
  Query_get 1 w = (Ok (Some corpus), w0) ∧
  Query_get_route h "1" w = (Ok (Some corpus), w0) ∧
  json_loads h "no JSON" = Raise JSONDecodeError ∧
  CorporaController.update h "1" "no JSON" w
    = (Ok JJSONDecodeErrorResponse, set_status_int 400 w0) ∧
  CorporaController.writetofile h "1" "no JSON" w
    = (Ok JJSONDecodeErrorResponse, set_status_int 400 w0).
Proof.
  intros h w w0 corpus.
  split; [reflexivity |]. split; [vm_compute; reflexivity |].
  split; [vm_compute; reflexivity |]. split; [reflexivity |].
  apply (bad_request_answers_400 h "1" "no JSON" 1 corpus w w0);
    [reflexivity | vm_compute; reflexivity | vm_compute; reflexivity | reflexivity].
Defined.

Lemma export_paths_are_separate_witness :
  let h := Installation.h in
  let c1 := Installation.corpus1 in
  let c2 := corpus_two in
  let p1 := ["files"; "corpora"; "corpus_1"; "corpus_1.tbk"] in
  let p2 := ["files"; "corpora"; "corpus_2"; "corpus_2.tbk"] in
  getCorpusFilePath h c1 "treebank" = Ok p1 ∧
  getCorpusFilePath h c2 "treebank" = Ok p2 ∧
  removelast p1 = getCorpusDirPath h c1 ∧
  getCorpusDirPath h c1 `prefix_of` p1 ∧
  (corpus_id c1 ≠ corpus_id c2 →
   getCorpusDirPath h c1 ≠ getCorpusDirPath h c2 ∧
   ¬ getCorpusDirPath h c1 `prefix_of` p2 ∧
   p1 ≠ p2).
Proof.
  intros h c1 c2 p1 p2.
  split; [vm_compute; reflexivity |]. split; [vm_compute; reflexivity |].
  apply (export_paths_are_separate h c1 c2 "treebank" "treebank" p1 p2);
    vm_compute; reflexivity.
Defined.

Lemma delete_then_show_witness :
  let h := Installation.h in
  let c := Installation.corpus1 in
  let w := Installation.world c Installation.admin in
  let w' := (CorporaController.delete h "1" w).2 in
  primary_key_of h "1" = Some 1 ∧
  consistent w ∧
  CorporaController.delete h "1" w = (Ok (JCorpus c), w') ∧
  corpus_id c = 1 ∧
  table_corpus w' !! 1 = None ∧
  session_identity w' !! 1 = None ∧
  CorporaController.show h "1" w'
  = (Ok (JError ("There is no corpus with id " +:+ "1")), set_status_int 404 w') ∧
  (filesystem w !! getCorpusDirPath h c = Some Dir →
   ∀ q, getCorpusDirPath h c `prefix_of` q → filesystem w' !! q = None).
Proof.
  intros h c w w'.
  split; [reflexivity |]. split; [apply consistent_world |].
  split; [vm_compute; reflexivity |].
  apply (delete_then_show h "1" 1 c w w');
    [reflexivity | apply consistent_world | vm_compute; reflexivity].
Defined.




Lemma init_order_irrelevant_witness :
  let kwargs := [("name", VStr "N"); ("id", VInt 3)] in
  let kwargs' := [("id", VInt 3); ("name", VStr "N")] in
  NoDup kwargs.*1 ∧
  kwargs ≡ₚ kwargs' ∧
  SyntacticCategory.__init__ kwargs = SyntacticCategory.__init__ kwargs'.
Proof.
  intros kwargs kwargs'.
  assert (NoDup kwargs.*1) as Hnodup.
  { apply NoDup_cons. split; [| apply NoDup_singleton].
    intros Hin. apply list_elem_of_singleton in Hin. discriminate. }
  split; [exact Hnodup |]. split; [apply perm_swap |].
  apply (init_order_irrelevant kwargs kwargs'); [exact Hnodup | apply perm_swap].
Defined.

Lemma get_dict_of_init_witness :
  let kwargs := [("name", VStr "N"); ("colour", VStr "red")] in
  NoDup kwargs.*1 ∧
  SyntacticCategory.get_dict (SyntacticCategory.__init__ kwargs) !! "name"
  = if decide ("name" ∈ SyntacticCategory.columns)
    then Some (default VNull (list_to_map (M := gmap string Value) kwargs !! "name"))
    else None.
Proof.
  intros kwargs.
  assert (NoDup kwargs.*1) as Hnodup.
  { apply NoDup_cons. split; [| apply NoDup_singleton].
    intros Hin. apply list_elem_of_singleton in Hin. discriminate. }
  split; [exact Hnodup |].
  apply (get_dict_of_init kwargs "name"). exact Hnodup.
Defined.

Lemma update_missing_integer_id_witness :
  let h := Installation.h in
  let w := Installation.world Installation.corpus1 Installation.admin in
  (Query_get 99 w).1 = Ok None ∧
  CorporaController.update h (pretty 99) "renamed" w
  = (Ok (JError ("There is no corpus with id " +:+ pretty 99)), set_status_int 404 w).
Proof.
  intros h w. split; [reflexivity |].
  apply (update_missing_integer_id h 99 "renamed" w). reflexivity.
Defined.
